(** * headless/load_session.cc: lifecycle of the headless Ardour host

    A shallow embedding of [load_session.cc] (the POSIX build, in which
    [PLATFORM_WINDOWS] is not defined) and the properties of its start-up,
    shutdown coordination and teardown.

    The translation unit talks to collaborators that live elsewhere
    (the audio engine, the session, the cross-thread channel, libc's
    [getopt_long]).  Their answers are taken from an environment record;
    every call the program makes to them is appended, in program order, to
    a trace kept in the process state.  Functions of the file become
    computations in a small monad carrying that state and the ways a C++
    call can fail to return.

    The three producers run on threads and in signal context the
    coordinator does not own.  Here the environment says which of them
    fire while the coordinator is inside a call of [receive]; each firing
    runs its callback to the end and adds its calls to the same trace. *)

From Stdlib Require Import List String Ascii ZArith Bool Lia.
Import ListNotations.

Local Open Scope string_scope.
Local Open Scope list_scope.
Local Open Scope Z_scope.

(** ** Data *)

(** Preprocessor macros and link-time constants the file reads but does
    not define. *)
Record Build := {
  PROGRAM_NAME : string;
  VERSIONSTRING : string;
  revision : string;                (* ARDOUR::revision *)
  LOCALEDIR : string;
  GNUC_VERSION : option string;     (* __VERSION__, when __GNUC__ is defined *)
  WINDOWS_VST_SUPPORT : bool;
  EXIT_FAILURE : Z                  (* <cstdlib> *)
}.

(** The exception classes told apart by the handlers of [main].
    [failed_constructor] and [PortRegistrationFailure] both derive from
    [std::exception]; [foreign_exception] is anything that does not. *)
Inductive exn :=
| failed_constructor (what : string)
| PortRegistrationFailure (what : string)
| std_exception (what : string)
| foreign_exception.

Inductive signum := SIGINT | SIGTERM.

(** Their numbers, as the handler receives them (<signal.h>, POSIX). *)
Definition signo (sig : signum) : Z :=
  match sig with SIGINT => 2 | SIGTERM => 15 end.

(** The four transmitters [test_receiver] listens to. *)
Inductive Transmitter := tx_error | tx_info | tx_fatal | tx_warning.

(** [Session*]: the object built by [new Session] from the engine, [dir] and [state]. *)
Record Session := { session_dir : string; session_state : string }.

(** Calls to the outside world, with the answer where the caller reads it. *)
Inductive Event :=
| EvCout (s : string)
| EvCerr (s : string)
| EvSetBypassAllLoadedPlugins (yn : bool)
| EvSetDisableAllLoadedPlugins (yn : bool)
| EvParseDebugOptions (str : option string) (r : Z)
| EvSetConnectingBlocked (yn : bool)
| EvArdourInit (use_vst try_hw_optimization : bool) (localedir : string) (ok : bool)
| EvCreatePerThreadPool (name : string) (nitems : Z)
| EvListenTo (t : Transmitter)
| EvEngineCreate
| EvSetBackend (name client_name session_uuid : string) (ok : bool)
| EvEngineStart (r : Z)
| EvNewSession (dir state : string) (thrown : option exn)
| EvSetSession (s : Session)
| EvConnectAccessAction                 (* BasicUI::AccessAction.connect_same_thread *)
| EvConnectHalted                       (* Halted.connect_same_thread *)
| EvSignal (sig : signum)               (* signal (sig, wearedone) *)
| EvRequestTransportSpeed (s : Session)
| EvReceive (r : Z)
| EvDeliver (msg : ascii)
| EvRemoveSession
| EvDeleteSession (s : Session)
| EvEngineStop
| EvEngineDestroy.

(** The file's mutable globals and the calls made so far (oldest first).
    [xthread] and [test_receiver] have no state of their own here: what
    is done to them is in the trace. *)
Record Process := {
  backend_client_name : string;
  backend_name : string;
  trace : list Event
}.

(** State at program start: the static initialisers of lines 32-33. *)
Definition initial_process : Process :=
  {| backend_client_name := ""; backend_name := "JACK"; trace := [] |}.

(** ** The monad *)

(** How a call ends. *)
Inductive Outcome (A : Type) :=
| Normal (a : A)            (* it returns *)
| Exited (status : Z)       (* ::exit (status) was called *)
| Thrown (e : exn)          (* an exception leaves it *)
| Undefined                 (* undefined behaviour, e.g. a null [char*] read as a string *)
| Blocked.                  (* a blocking call never returns *)

Arguments Normal {A} a.
Arguments Exited {A} status.
Arguments Thrown {A} e.
Arguments Undefined {A}.
Arguments Blocked {A}.

Definition M (A : Type) : Type := Process -> Outcome A * Process.

Definition ret {A} (a : A) : M A := fun p => (Normal a, p).

Definition bind {A B} (m : M A) (k : A -> M B) : M B :=
  fun p =>
    match m p with
    | (Normal a, p') => k a p'
    | (Exited n, p') => (Exited n, p')
    | (Thrown e, p') => (Thrown e, p')
    | (Undefined, p') => (Undefined, p')
    | (Blocked, p') => (Blocked, p')
    end.

Declare Scope proc_scope.
Delimit Scope proc_scope with proc.
Notation "x <- c1 ;; c2" := (bind c1 (fun x => c2))
  (at level 61, c1 at next level, right associativity) : proc_scope.
Notation "' pat <- c1 ;; c2" := (bind c1 (fun x => match x with pat => c2 end))
  (at level 61, pat pattern, c1 at next level, right associativity) : proc_scope.
Notation "c1 ;; c2" := (bind c1 (fun _ => c2))
  (at level 61, right associativity) : proc_scope.
Local Open Scope proc_scope.

Definition exit {A} (status : Z) : M A := fun p => (Exited status, p).
Definition throw {A} (e : exn) : M A := fun p => (Thrown e, p).
Definition undefined {A} : M A := fun p => (Undefined, p).
Definition blocked {A} : M A := fun p => (Blocked, p).

(** [try { m } catch (...) { handler }]: only a thrown exception reaches
    the handler; [::exit] inside [m] is not an exception. *)
Definition try_catch {A} (m : M A) (handler : exn -> M A) : M A :=
  fun p =>
    match m p with
    | (Thrown e, p') => handler e p'
    | r => r
    end.

(** [log p evs]: the process after the calls [evs], globals untouched. *)
Definition log (p : Process) (evs : list Event) : Process :=
  {| backend_client_name := backend_client_name p;
     backend_name := backend_name p;
     trace := trace p ++ evs |}.

Definition emit (e : Event) : M unit := fun p => (Normal tt, log p [e]).

Definition get_backend_name : M string := fun p => (Normal (backend_name p), p).
Definition get_backend_client_name : M string :=
  fun p => (Normal (backend_client_name p), p).
Definition set_backend_client_name (s : string) : M unit :=
  fun p => (Normal tt,
            {| backend_client_name := s;
               backend_name := backend_name p;
               trace := trace p |}).

(** ** Streams and C strings *)

Definition nl : string := String (ascii_of_nat 10) "".

(** [std::endl]: a newline (and a flush, which leaves no mark here). *)
Definition endl : string := nl.

Definition cout_put (s : string) : M unit := emit (EvCout s).
Definition cerr_put (s : string) : M unit := emit (EvCerr s).

(** A [const char*] is [None] when null.  Reading a null pointer as a
    string ([strlen], [operator<<], conversion to [std::string]) is
    undefined. *)
Definition cstr (p : option string) : M string :=
  match p with
  | Some s => ret s
  | None => undefined
  end.

Definition strlen (p : option string) : M Z :=
  s <- cstr p ;; ret (Z.of_nat (String.length s)).

(** ** The producers: lines 67-93 *)

(** [xthread.deliver (msg)]. *)
Definition deliver (msg : ascii) : M unit := emit (EvDeliver msg).

Definition access_action (action_group action_item : string) : M unit :=
  if (action_group =? "Common")%string && (action_item =? "Quit")%string
  then deliver "x"%char
  else ret tt.

Definition engine_halted (reason : option string) : M unit :=
  cerr_put "The audio backend has been shutdown" ;;
  has_reason <- match reason with
                | Some _ => n <- strlen reason ;; ret (0 <? n)
                | None => ret false       (* && does not evaluate strlen *)
                end ;;
  (if has_reason : bool
   then cerr_put ": " ;; s <- cstr reason ;; cerr_put s
   else cerr_put ".") ;;
  cerr_put endl ;;
  deliver "x"%char.

Definition wearedone (sig : Z) : M unit :=
  cerr_put "caught signal - terminating." ;;
  cerr_put endl ;;
  deliver "x"%char.

(** What can fire while the coordinator waits: a signal whose handler
    was installed, the engine's [Halted] signal, or [BasicUI::AccessAction]. *)
Inductive Source :=
| OsSignal (sig : signum)
| EngineHalt (reason : option string)
| UiAction (action_group action_item : string).

Definition fire (src : Source) : M unit :=
  match src with
  | OsSignal sig => wearedone (signo sig)
  | EngineHalt reason => engine_halted reason
  | UiAction g i => access_action g i
  end.

Fixpoint fire_all (srcs : list Source) : M unit :=
  match srcs with
  | [] => ret tt
  | src :: rest => fire src ;; fire_all rest
  end.

(** ** The environment *)

(** What the collaborators answer during one run. *)
Record Env := {
  (** [argv], in the order [getopt_long] leaves it; [argc] is its length
      and [argv[argc]] is the null pointer. *)
  argv : list string;
  (** Successive values returned by [getopt_long], each with [optarg] as
      it stands after the call; past the end of the list it returns -1. *)
  getopt_results : list (Z * option string);
  (** [optind] once [getopt_long] has returned -1. *)
  getopt_optind : nat;
  parse_debug_options : option string -> Z;          (* PBD::parse_debug_options *)
  ardour_init : bool -> bool -> string -> bool;      (* ARDOUR::init *)
  set_backend : string -> string -> string -> bool;  (* does it return a backend? *)
  engine_start : Z;                                  (* AudioEngine::start *)
  session_constructor : string -> string -> option exn;  (* what it throws, if anything *)
  (** Successive calls of [xthread.receive (msg, true)]: the sources that
      fire before the call returns, and the value it returns.  Past the
      end of the list the call never returns. *)
  receive_calls : list (list Source * Z)
}.

(** [::tolower] in the C locale. *)
Definition tolower (c : ascii) : ascii :=
  let n := nat_of_ascii c in
  if ((65 <=? n) && (n <=? 90))%nat then ascii_of_nat (n + 32) else c.

(** Modelled from the spec: [PBD::downcase] (libs/pbd/convert.cc, which
    is not part of this file) returns its argument lowercased. *)
Fixpoint downcase (s : string) : string :=
  match s with
  | EmptyString => EmptyString
  | String c rest => String (tolower c) (downcase rest)
  end.

Definition when (b : bool) (m : M unit) : M unit := if b then m else ret tt.

Fixpoint cout_all (l : list string) : M unit :=
  match l with
  | [] => ret tt
  | s :: rest => cout_put s ;; cout_all rest
  end.

Definition dq : string := String (ascii_of_nat 34) "".

(** Character constants as [int]. *)
Definition chr (c : ascii) : Z := Z.of_nat (nat_of_ascii c).

(** ** The program: lines 37-65 and 95-263 *)

Section Program.

Variable build : Build.
Variable env : Env.

(** *** Calls into the collaborators *)

Definition ARDOUR_init (use_vst try_hw_optimization : bool) (localedir : string) : M bool :=
  let ok := ardour_init env use_vst try_hw_optimization localedir in
  emit (EvArdourInit use_vst try_hw_optimization localedir ok) ;; ret ok.

Definition PBD_parse_debug_options (str : option string) : M Z :=
  let r := parse_debug_options env str in
  emit (EvParseDebugOptions str r) ;; ret r.

Definition engine_set_backend (name client_name session_uuid : string) : M bool :=
  let ok := set_backend env name client_name session_uuid in
  emit (EvSetBackend name client_name session_uuid ok) ;; ret ok.

Definition engine_start_call : M Z :=
  let r := engine_start env in
  emit (EvEngineStart r) ;; ret r.

Definition new_Session (dir state : string) : M Session :=
  let thrown := session_constructor env dir state in
  emit (EvNewSession dir state thrown) ;;
  match thrown with
  | Some e => throw e
  | None => ret {| session_dir := dir; session_state := state |}
  end.

(** [argv[i]] for [i] up to [argc]; further out the read is out of
    bounds. *)
Definition argv_at (i : nat) : M (option string) :=
  match nth_error (argv env) i with
  | Some a => ret (Some a)
  | None => if (i =? List.length (argv env))%nat then ret None else undefined
  end.

(** *** load_session *)

Definition load_session (dir state : string) : M Session :=
  emit (EvCreatePerThreadPool "test" 512) ;;
  emit (EvListenTo tx_error) ;;
  emit (EvListenTo tx_info) ;;
  emit (EvListenTo tx_fatal) ;;
  emit (EvListenTo tx_warning) ;;
  emit EvEngineCreate ;;
  name <- get_backend_name ;;
  client_name <- get_backend_client_name ;;
  backend <- engine_set_backend name client_name "" ;;
  when (negb backend)
    (cerr_put ("Cannot set Audio/MIDI engine backend" ++ nl)%string ;;
     exit 1) ;;
  r <- engine_start_call ;;
  when (negb (r =? 0))
    (cerr_put ("Cannot start Audio/MIDI engine" ++ nl)%string ;;
     exit 1) ;;
  session <- new_Session dir state ;;
  emit (EvSetSession session) ;;
  ret session.

(** *** print_version, print_help *)

Definition print_version : M unit :=
  cout_put (PROGRAM_NAME build) ;;
  cout_put (VERSIONSTRING build) ;;
  cout_put " (built using " ;;
  cout_put (revision build) ;;
  match GNUC_VERSION build with
  | Some v => cout_put " and GCC version " ;; cout_put v
  | None => ret tt
  end ;;
  cout_put ")" ;;
  cout_put endl.

Definition help_text : list string :=
  [ ("Usage: hardour [OPTIONS]... DIR SNAPSHOT_NAME" ++ nl ++ nl)%string;
    ("  DIR                         Directory/Folder to load session from" ++ nl)%string;
    ("  SNAPSHOT_NAME               Name of session/snapshot to load (without .ardour at end" ++ nl)%string;
    ("  -v, --version               Show version information" ++ nl)%string;
    ("  -h, --help                  Print this message" ++ nl)%string;
    ("  -c, --name <name>           Use a specific backend client name, default is ardour" ++ nl)%string;
    ("  -d, --disable-plugins       Disable all plugins in an existing session" ++ nl)%string;
    ("  -D, --debug <options>       Set debug flags. Use " ++ dq ++ "-D list" ++ dq
       ++ " to see available options" ++ nl)%string;
    ("  -O, --no-hw-optimizations   Disable h/w specific optimizations" ++ nl)%string;
    ("  -P, --no-connect-ports      Do not connect any ports at startup" ++ nl)%string ]
  ++ (if WINDOWS_VST_SUPPORT build
      then [ ("  -V, --novst                 Do not use VST support" ++ nl)%string ]
      else []).

Definition print_help : M unit := cout_all help_text.

(** *** main *)

(** The [while (1)] loop of lines 155-212, one iteration per value
    returned by [getopt_long]; the two booleans are the locals [use_vst]
    and [try_hw_optimization]. *)
Fixpoint option_loop (results : list (Z * option string))
         (use_vst try_hw_optimization : bool) : M (bool * bool) :=
  match results with
  | [] => ret (use_vst, try_hw_optimization)                 (* c == -1 *)
  | (c, optarg) :: rest =>
      if c =? -1 then ret (use_vst, try_hw_optimization)
      else if c =? 0 then option_loop rest use_vst try_hw_optimization
      else if c =? chr "v" then print_version ;; exit 0
      else if c =? chr "h" then print_help ;; exit 0
      else if c =? chr "c" then
        name <- cstr optarg ;;
        set_backend_client_name name ;;
        option_loop rest use_vst try_hw_optimization
      else if c =? chr "B" then
        emit (EvSetBypassAllLoadedPlugins true) ;;
        option_loop rest use_vst try_hw_optimization
      else if c =? chr "d" then
        emit (EvSetDisableAllLoadedPlugins true) ;;
        option_loop rest use_vst try_hw_optimization
      else if c =? chr "D" then
        r <- PBD_parse_debug_options optarg ;;
        when (negb (r =? 0)) (exit 1) ;;
        option_loop rest use_vst try_hw_optimization
      else if c =? chr "O" then option_loop rest use_vst false
      else if c =? chr "P" then
        emit (EvSetConnectingBlocked true) ;;
        option_loop rest use_vst try_hw_optimization
      else if c =? chr "V" then
        option_loop rest (if WINDOWS_VST_SUPPORT build then false else use_vst)
                    try_hw_optimization
      else print_help ;; exit 1
  end.

(** [do {} while (0 == xthread.receive (msg, true));] of line 254, one
    iteration per call of [receive]. *)
Fixpoint wait_for_shutdown (calls : list (list Source * Z)) : M unit :=
  match calls with
  | [] => blocked
  | (fired, r) :: rest =>
      fire_all fired ;;
      emit (EvReceive r) ;;
      if r =? 0 then wait_for_shutdown rest else ret tt
  end.

Definition argc : Z := Z.of_nat (List.length (argv env)).

Definition main : M Z :=
  set_backend_client_name (downcase (PROGRAM_NAME build)) ;;
  '(use_vst, try_hw_optimization) <- option_loop (getopt_results env) true true ;;
  when (argc <? 3) (print_help ;; exit 1) ;;
  ok <- ARDOUR_init use_vst try_hw_optimization (LOCALEDIR build) ;;
  when (negb ok)
    (cerr_put ("Ardour failed to initialize" ++ nl)%string ;;
     cerr_put endl ;;
     exit 1) ;;
  s <- try_catch
         (a1 <- argv_at (getopt_optind env) ;;
          a2 <- argv_at (getopt_optind env + 1) ;;
          dir <- cstr a1 ;;
          state <- cstr a2 ;;
          load_session dir state)
         (fun e =>
            match e with
            | failed_constructor what =>
                cerr_put "failed_constructor: " ;; cerr_put what ;; cerr_put nl ;;
                exit (EXIT_FAILURE build)
            | PortRegistrationFailure what =>
                cerr_put "PortRegistrationFailure: " ;; cerr_put what ;; cerr_put nl ;;
                exit (EXIT_FAILURE build)
            | std_exception what =>
                cerr_put "exception: " ;; cerr_put what ;; cerr_put nl ;;
                exit (EXIT_FAILURE build)
            | foreign_exception =>
                cerr_put ("unknown exception." ++ nl)%string ;;
                exit (EXIT_FAILURE build)
            end) ;;
  emit EvConnectAccessAction ;;
  emit EvConnectHalted ;;
  emit (EvSignal SIGINT) ;;
  emit (EvSignal SIGTERM) ;;
  emit (EvRequestTransportSpeed s) ;;
  wait_for_shutdown (receive_calls env) ;;
  emit EvRemoveSession ;;
  emit (EvDeleteSession s) ;;
  emit EvEngineStop ;;
  emit EvEngineDestroy ;;
  ret 0.

(** One run of the program, from the initial state. *)
Definition run : Outcome Z * Process := main initial_process.

End Program.

(** The process exit status, when the process ends at all. *)
Definition exit_status (o : Outcome Z) : option Z :=
  match o with
  | Normal r => Some r
  | Exited status => Some status
  | _ => None
  end.

Definition outcome_of (build : Build) (env : Env) : Outcome Z := fst (run build env).
Definition events_of (build : Build) (env : Env) : list Event := trace (snd (run build env)).

(** ** Observations on traces *)

(** The calls a computation adds when started in [p]. *)
Definition new_events {A} (m : M A) (p : Process) : list Event :=
  skipn (List.length (trace p)) (trace (snd (m p))).

Fixpoint tokens (evs : list Event) : list ascii :=
  match evs with
  | [] => []
  | EvDeliver msg :: rest => msg :: tokens rest
  | _ :: rest => tokens rest
  end.

(** The tokens a computation hands to [xthread.deliver]. *)
Definition delivered {A} (m : M A) (p : Process) : list ascii :=
  tokens (new_events m p).

Fixpoint cerr_text (evs : list Event) : string :=
  match evs with
  | [] => ""
  | EvCerr s :: rest => (s ++ cerr_text rest)%string
  | _ :: rest => cerr_text rest
  end.

Definition is_teardown (e : Event) : bool :=
  match e with
  | EvRemoveSession | EvDeleteSession _ | EvEngineStop | EvEngineDestroy => true
  | _ => false
  end.

(** The teardown steps found in a trace, in the order they were made. *)
Definition teardown_steps (evs : list Event) : list Event := filter is_teardown evs.

Definition teardown_sequence (s : Session) : list Event :=
  [EvRemoveSession; EvDeleteSession s; EvEngineStop; EvEngineDestroy].

(** The diagnostic [engine_halted] writes, one entry per [<<]. *)
Definition halt_message (reason : option string) : list string :=
  match reason with
  | Some (String c r) =>
      ["The audio backend has been shutdown"; ": "; String c r; endl]
  | _ => ["The audio backend has been shutdown"; "."; endl]
  end.


(** ** Describing runs *)

(** What one firing of a source adds to the trace. *)
Definition fire_events (src : Source) : list Event :=
  match src with
  | OsSignal _ =>
      [EvCerr "caught signal - terminating."; EvCerr endl; EvDeliver "x"]
  | EngineHalt reason => map EvCerr (halt_message reason) ++ [EvDeliver "x"]
  | UiAction g i =>
      if (g =? "Common")%string && (i =? "Quit")%string then [EvDeliver "x"] else []
  end.

(** The trace of the wait: each call of [receive] up to the first that
    returns non-zero, preceded by what fired during it. *)
Fixpoint wait_trace (calls : list (list Source * Z)) : list Event :=
  match calls with
  | [] => []
  | (fired, r) :: rest =>
      flat_map fire_events fired ++
      EvReceive r :: (if r =? 0 then wait_trace rest else [])
  end.

(** Does some call of [receive] return non-zero? *)
Fixpoint shutdown_requested (calls : list (list Source * Z)) : bool :=
  match calls with
  | [] => false
  | (_, r) :: rest => if r =? 0 then shutdown_requested rest else true
  end.

(** Calls made while the options are read or help and version are printed. *)
Definition is_option_event (e : Event) : bool :=
  match e with
  | EvCout _ | EvSetBypassAllLoadedPlugins _ | EvSetDisableAllLoadedPlugins _
  | EvParseDebugOptions _ _ | EvSetConnectingBlocked _ => true
  | _ => false
  end.

(** The client name the options leave behind: the argument of the last
    [-c], or else [default]. *)
Fixpoint chosen_client_name (results : list (Z * option string)) (default : string)
  : string :=
  match results with
  | [] => default
  | (c, optarg) :: rest =>
      if c =? -1 then default
      else if c =? chr "c" then
        match optarg with
        | Some name => chosen_client_name rest name
        | None => default
        end
      else chosen_client_name rest default
  end.

(** The part of the trace that [print_version] writes. *)
Definition version_text (build : Build) : list string :=
  [PROGRAM_NAME build; VERSIONSTRING build; " (built using "; revision build]
  ++ match GNUC_VERSION build with
     | Some v => [" and GCC version "; v]
     | None => []
     end
  ++ [")"; endl].

(** What the handlers of [main] write for an exception. *)
Definition report (e : exn) : list string :=
  match e with
  | failed_constructor what => ["failed_constructor: "; what; nl]
  | PortRegistrationFailure what => ["PortRegistrationFailure: "; what; nl]
  | std_exception what => ["exception: "; what; nl]
  | foreign_exception => [("unknown exception." ++ nl)%string]
  end.

(** A start-up step that did not succeed. *)
Definition failed_step (e : Event) : bool :=
  match e with
  | EvArdourInit _ _ _ ok => negb ok
  | EvSetBackend _ _ _ ok => negb ok
  | EvEngineStart r => negb (r =? 0)
  | EvNewSession _ _ (Some _) => true
  | _ => false
  end.

(** Calls that create, configure or start the engine. *)
Definition is_engine_init (e : Event) : bool :=
  match e with
  | EvEngineCreate | EvSetBackend _ _ _ _ | EvEngineStart _ => true
  | _ => false
  end.

(** Calls made while the coordinator waits, and diagnostics. *)
Definition is_wait_event (e : Event) : bool :=
  match e with
  | EvCerr _ | EvDeliver _ | EvReceive _ => true
  | _ => false
  end.

(** [Running] is entered with the transport request of line 251. *)
Definition is_running (e : Event) : bool :=
  match e with
  | EvRequestTransportSpeed _ => true
  | _ => false
  end.

Definition reached_running (evs : list Event) : bool := existsb is_running evs.

(** Arguments left for [DIR] and [SNAPSHOT_NAME] once the options are read. *)
Definition positional_count (env : Env) : nat :=
  (List.length (argv env) - getopt_optind env)%nat.

Section Shape.

Variable build : Build.
Variable env : Env.

(** Do the options let the loop run to its end?  False when [-v], [-h],
    an unknown option or a rejected [-D] ends the run first. *)
Fixpoint options_accepted (results : list (Z * option string)) : bool :=
  match results with
  | [] => true
  | (c, optarg) :: rest =>
      if c =? -1 then true
      else if c =? 0 then options_accepted rest
      else if c =? chr "v" then false
      else if c =? chr "h" then false
      else if c =? chr "c" then
        match optarg with
        | Some _ => options_accepted rest
        | None => false
        end
      else if c =? chr "B" then options_accepted rest
      else if c =? chr "d" then options_accepted rest
      else if c =? chr "D" then
        (parse_debug_options env optarg =? 0) && options_accepted rest
      else if c =? chr "O" then options_accepted rest
      else if c =? chr "P" then options_accepted rest
      else if c =? chr "V" then options_accepted rest
      else false
  end.

Definition client_name : string :=
  chosen_client_name (getopt_results env) (downcase (PROGRAM_NAME build)).

Definition engine_setup : list Event :=
  [EvCreatePerThreadPool "test" 512;
   EvListenTo tx_error; EvListenTo tx_info; EvListenTo tx_fatal; EvListenTo tx_warning;
   EvEngineCreate].

(** From the engine's start to the transport request. *)
Definition session_startup (s : Session) : list Event :=
  [EvSetBackend "JACK" client_name "" true; EvEngineStart 0;
   EvNewSession (session_dir s) (session_state s) None; EvSetSession s;
   EvConnectAccessAction; EvConnectHalted; EvSignal SIGINT; EvSignal SIGTERM;
   EvRequestTransportSpeed s].

(** The runs of the program: how it ends, and the calls it has made. *)
Inductive Run : Outcome Z -> list Event -> Prop :=
| RunOptionsEnd out opts :
    forallb is_option_event opts = true ->
    options_accepted (getopt_results env) = false ->
    out = Exited 0 \/ out = Exited 1 \/ out = Undefined ->
    Run out opts
| RunUsage opts :
    forallb is_option_event opts = true ->
    options_accepted (getopt_results env) = true ->
    argc env < 3 ->
    Run (Exited 1) (opts ++ map EvCout (help_text build))
| RunInitFailed opts use_vst try_hw :
    forallb is_option_event opts = true ->
    3 <= argc env ->
    Run (Exited 1)
        (opts ++ [EvArdourInit use_vst try_hw (LOCALEDIR build) false;
                  EvCerr ("Ardour failed to initialize" ++ nl)%string; EvCerr endl])
| RunNullArgument opts use_vst try_hw :
    forallb is_option_event opts = true ->
    3 <= argc env ->
    (positional_count env < 2)%nat ->
    Run Undefined (opts ++ [EvArdourInit use_vst try_hw (LOCALEDIR build) true])
| RunBackendUnavailable opts use_vst try_hw :
    forallb is_option_event opts = true ->
    3 <= argc env ->
    Run (Exited 1)
        (opts ++ EvArdourInit use_vst try_hw (LOCALEDIR build) true :: engine_setup
              ++ [EvSetBackend "JACK" client_name "" false;
                  EvCerr ("Cannot set Audio/MIDI engine backend" ++ nl)%string])
| RunStartFailed opts use_vst try_hw r :
    forallb is_option_event opts = true ->
    3 <= argc env ->
    r <> 0 ->
    Run (Exited 1)
        (opts ++ EvArdourInit use_vst try_hw (LOCALEDIR build) true :: engine_setup
              ++ [EvSetBackend "JACK" client_name "" true; EvEngineStart r;
                  EvCerr ("Cannot start Audio/MIDI engine" ++ nl)%string])
| RunConstructionFailed opts use_vst try_hw dir state e :
    forallb is_option_event opts = true ->
    3 <= argc env ->
    Run (Exited (EXIT_FAILURE build))
        (opts ++ EvArdourInit use_vst try_hw (LOCALEDIR build) true :: engine_setup
              ++ [EvSetBackend "JACK" client_name "" true; EvEngineStart 0;
                  EvNewSession dir state (Some e)]
              ++ map EvCerr (report e))
| RunBlocked opts use_vst try_hw s :
    forallb is_option_event opts = true ->
    3 <= argc env ->
    shutdown_requested (receive_calls env) = false ->
    Run Blocked
        (opts ++ EvArdourInit use_vst try_hw (LOCALEDIR build) true :: engine_setup
              ++ session_startup s ++ wait_trace (receive_calls env))
| RunCompleted opts use_vst try_hw s :
    forallb is_option_event opts = true ->
    3 <= argc env ->
    shutdown_requested (receive_calls env) = true ->
    Run (Normal 0)
        (opts ++ EvArdourInit use_vst try_hw (LOCALEDIR build) true :: engine_setup
              ++ session_startup s ++ wait_trace (receive_calls env)
              ++ teardown_sequence s).

End Shape.

(** [p] with [backend_client_name] assigned. *)
Definition with_client (p : Process) (name : string) : Process :=
  {| backend_client_name := name; backend_name := backend_name p; trace := trace p |}.

(** ** The usage claim as the specification words it *)

(** Fewer than two positional arguments: help is printed, the status is
    1 and the engine is never initialised, whatever flags are given. *)
Definition usage_claim : Prop :=
  forall build env,
    (positional_count env < 2)%nat ->
    exit_status (outcome_of build env) = Some 1
    /\ (exists before, events_of build env = before ++ map EvCout (help_text build))
    /\ existsb is_engine_init (events_of build env) = false.

(** ** Sample runs *)

Definition sample_build : Build :=
  {| PROGRAM_NAME := "Ardour"; VERSIONSTRING := "5.12"; revision := "5.12-0";
     LOCALEDIR := "/usr/share/locale"; GNUC_VERSION := Some "9.3.0";
     WINDOWS_VST_SUPPORT := false; EXIT_FAILURE := 1 |}.

(** A world in which every collaborator succeeds and nothing ever fires. *)
Definition quiet_env (args : list string) (results : list (Z * option string))
           (optind : nat) : Env :=
  {| argv := args; getopt_results := results; getopt_optind := optind;
     parse_debug_options := fun _ => 0;
     ardour_init := fun _ _ _ => true;
     set_backend := fun _ _ _ => true;
     engine_start := 0;
     session_constructor := fun _ _ => None;
     receive_calls := [] |}.

Definition sample_session : Session :=
  {| session_dir := "dir"; session_state := "snap" |}.

(** [hardour -c foo dir snap]: an unrelated UI action, then the engine
    halts and SIGINT arrives before [receive] returns 1. *)
Definition env_halt_then_signal : Env :=
  {| argv := ["hardour"; "-c"; "foo"; "dir"; "snap"];
     getopt_results := [(chr "c", Some "foo")]; getopt_optind := 3;
     parse_debug_options := fun _ => 0;
     ardour_init := fun _ _ _ => true;
     set_backend := fun _ _ _ => true;
     engine_start := 0;
     session_constructor := fun _ _ => None;
     receive_calls :=
       [([UiAction "Common" "Save"], 0);
        ([EngineHalt (Some "device removed"); OsSignal SIGINT], 1)] |}.

(** [hardour dir snap] with a backend that cannot be set up. *)
Definition env_backend_unavailable : Env :=
  {| argv := ["hardour"; "dir"; "snap"];
     getopt_results := []; getopt_optind := 1;
     parse_debug_options := fun _ => 0;
     ardour_init := fun _ _ _ => true;
     set_backend := fun _ _ _ => false;
     engine_start := 0;
     session_constructor := fun _ _ => None;
     receive_calls := [] |}.

(** [hardour dir snap] with a session whose constructor throws. *)
Definition env_construction_fails : Env :=
  {| argv := ["hardour"; "dir"; "snap"];
     getopt_results := []; getopt_optind := 1;
     parse_debug_options := fun _ => 0;
     ardour_init := fun _ _ _ => true;
     set_backend := fun _ _ _ => true;
     engine_start := 0;
     session_constructor := fun _ _ => Some (failed_constructor "failed constructor");
     receive_calls := [] |}.

(** [hardour -v]: no positional argument at all. *)
Definition env_version : Env := quiet_env ["hardour"; "-v"] [(chr "v", None)] 2.

(** [hardour dir]: one positional argument, no flag. *)
Definition env_one_argument : Env := quiet_env ["hardour"; "dir"] [] 1.

(** [hardour -O dir]: one positional argument behind a flag. *)
Definition env_flag_and_directory : Env :=
  quiet_env ["hardour"; "-O"; "dir"] [(chr "O", None)] 2.

(** ** The options and the start-up in closed form *)

(** The call one accepted option makes. *)
Definition option_call (env : Env) (c : Z) (optarg : option string) : list Event :=
  if c =? chr "B" then [EvSetBypassAllLoadedPlugins true]
  else if c =? chr "d" then [EvSetDisableAllLoadedPlugins true]
  else if c =? chr "D" then [EvParseDebugOptions optarg (parse_debug_options env optarg)]
  else if c =? chr "P" then [EvSetConnectingBlocked true]
  else [].

(** The calls of the options, in command-line order, up to the -1 that
    ends them. *)
Fixpoint option_calls (env : Env) (results : list (Z * option string)) : list Event :=
  match results with
  | [] => []
  | (c, optarg) :: rest =>
      if c =? -1 then [] else option_call env c optarg ++ option_calls env rest
  end.

(** Is the option [opt] among those read before -1? *)
Fixpoint given (opt : Z) (results : list (Z * option string)) : bool :=
  match results with
  | [] => false
  | (c, _) :: rest => if c =? -1 then false else (c =? opt) || given opt rest
  end.

(** Does [getopt_long] return -1 only past the end of the list? *)
Definition no_end (results : list (Z * option string)) : bool :=
  forallb (fun r => negb (fst r =? -1)) results.

(** The locals [use_vst] and [try_hw_optimization] once the options are read. *)
Fixpoint flags_after (build : Build) (results : list (Z * option string))
         (use_vst try_hw : bool) : bool * bool :=
  match results with
  | [] => (use_vst, try_hw)
  | (c, _) :: rest =>
      if c =? -1 then (use_vst, try_hw)
      else if c =? chr "O" then flags_after build rest use_vst false
      else if c =? chr "V" then
        flags_after build rest (if WINDOWS_VST_SUPPORT build then false else use_vst) try_hw
      else flags_after build rest use_vst try_hw
  end.

(** The option codes that [main] has a case for. *)
Definition handled_option (c : Z) : bool :=
  existsb (Z.eqb c)
          [-1; 0; chr "v"; chr "h"; chr "c"; chr "B"; chr "d"; chr "D"; chr "O";
           chr "P"; chr "V"].

(** How the run goes on after the option loop has returned with the
    given flags: the outcome and the calls made from line 214 on. *)
Definition after_options (build : Build) (env : Env) (use_vst try_hw : bool)
  : Outcome Z * list Event :=
  let init := EvArdourInit use_vst try_hw (LOCALEDIR build) in
  let client := client_name build env in
  if argc env <? 3 then (Exited 1, map EvCout (help_text build))
  else if negb (ardour_init env use_vst try_hw (LOCALEDIR build)) then
    (Exited 1,
     [init false; EvCerr ("Ardour failed to initialize" ++ nl)%string; EvCerr endl])
  else
    match nth_error (argv env) (getopt_optind env),
          nth_error (argv env) (getopt_optind env + 1) with
    | Some dir, Some state =>
        let s := {| session_dir := dir; session_state := state |} in
        if negb (set_backend env "JACK" client "") then
          (Exited 1,
           init true :: engine_setup
             ++ [EvSetBackend "JACK" client "" false;
                 EvCerr ("Cannot set Audio/MIDI engine backend" ++ nl)%string])
        else if negb (engine_start env =? 0) then
          (Exited 1,
           init true :: engine_setup
             ++ [EvSetBackend "JACK" client "" true; EvEngineStart (engine_start env);
                 EvCerr ("Cannot start Audio/MIDI engine" ++ nl)%string])
        else
          match session_constructor env dir state with
          | Some e =>
              (Exited (EXIT_FAILURE build),
               init true :: engine_setup
                 ++ [EvSetBackend "JACK" client "" true; EvEngineStart 0;
                     EvNewSession dir state (Some e)]
                 ++ map EvCerr (report e))
          | None =>
              if shutdown_requested (receive_calls env) then
                (Normal 0,
                 init true :: engine_setup ++ session_startup build env s
                   ++ wait_trace (receive_calls env) ++ teardown_sequence s)
              else
                (Blocked,
                 init true :: engine_setup ++ session_startup build env s
                   ++ wait_trace (receive_calls env))
          end
    | _, _ => (Undefined, [init true])
    end.

(** ** Order of calls in a trace *)

(** [guarded need trigger seen evs]: every call of kind [trigger] in
    [evs] comes after a call of kind [need] (or [seen] holds already). *)
Fixpoint guarded (need trigger : Event -> bool) (seen : bool) (evs : list Event) : bool :=
  match evs with
  | [] => true
  | e :: rest =>
      (seen || negb (trigger e)) && guarded need trigger (seen || need e) rest
  end.

Definition is_backend_set (e : Event) : bool :=
  match e with EvSetBackend _ _ _ ok => ok | _ => false end.

Definition is_engine_start (e : Event) : bool :=
  match e with EvEngineStart _ => true | _ => false end.

Definition is_engine_started (e : Event) : bool :=
  match e with EvEngineStart r => r =? 0 | _ => false end.

Definition is_new_session (e : Event) : bool :=
  match e with EvNewSession _ _ _ => true | _ => false end.

Definition is_session_built (e : Event) : bool :=
  match e with EvNewSession _ _ None => true | _ => false end.

Definition is_set_session (e : Event) : bool :=
  match e with EvSetSession _ => true | _ => false end.

Definition is_receive (e : Event) : bool :=
  match e with EvReceive _ => true | _ => false end.

Definition is_delivery_received (e : Event) : bool :=
  match e with EvReceive r => negb (r =? 0) | _ => false end.


Definition is_ardour_init (e : Event) : bool :=
  match e with EvArdourInit _ _ _ _ => true | _ => false end.

(** Sample command lines for the option loop. *)

(** [hardour -d -v dir snap]. *)
Definition env_disable_then_version : Env :=
  quiet_env ["hardour"; "-d"; "-v"; "dir"; "snap"]
            [(chr "d", None); (chr "v", None)] 3.

(** [hardour -P -h]. *)
Definition env_block_then_help : Env :=
  quiet_env ["hardour"; "-P"; "-h"] [(chr "P", None); (chr "h", None)] 3.

(** [hardour -U 1234 dir snap]: --uuid is in the option table. *)
Definition env_uuid : Env :=
  quiet_env ["hardour"; "-U"; "1234"; "dir"; "snap"] [(chr "U", Some "1234")] 3.

(** [hardour -D list dir snap] with debug options that are rejected. *)
Definition env_debug_list : Env :=
  {| argv := ["hardour"; "-D"; "list"; "dir"; "snap"];
     getopt_results := [(chr "D", Some "list")]; getopt_optind := 3;
     parse_debug_options := fun _ => 1;
     ardour_init := fun _ _ _ => true;
     set_backend := fun _ _ _ => true;
     engine_start := 0;
     session_constructor := fun _ _ => None;
     receive_calls := [] |}.

(** [hardour -O -B dir snap] in a world where the coordinator is never woken. *)
Definition env_never_woken : Env :=
  {| argv := ["hardour"; "-O"; "-B"; "dir"; "snap"];
     getopt_results := [(chr "O", None); (chr "B", None)]; getopt_optind := 3;
     parse_debug_options := fun _ => 0;
     ardour_init := fun _ _ _ => true;
     set_backend := fun _ _ _ => true;
     engine_start := 0;
     session_constructor := fun _ _ => None;
     receive_calls := [([OsSignal SIGTERM], 0); ([EngineHalt None], 0)] |}.

(** [hardour dir snap] where ARDOUR::init fails. *)
Definition env_init_fails : Env :=
  {| argv := ["hardour"; "dir"; "snap"];
     getopt_results := []; getopt_optind := 1;
     parse_debug_options := fun _ => 0;
     ardour_init := fun _ _ _ => false;
     set_backend := fun _ _ _ => true;
     engine_start := 0;
     session_constructor := fun _ _ => None;
     receive_calls := [] |}.

(** The flags [main] passes to [ARDOUR::init], from the options given. *)
Definition use_vst_flag (build : Build) (env : Env) : bool :=
  negb (WINDOWS_VST_SUPPORT build && given (chr "V") (getopt_results env)).

Definition try_hw_flag (env : Env) : bool :=
  negb (given (chr "O") (getopt_results env)).

(** The callbacks and handlers [main] registers in lines 243-248. *)
Definition registrations : list Event :=
  [EvConnectAccessAction; EvConnectHalted; EvSignal SIGINT; EvSignal SIGTERM].

Definition is_registration_of (reg e : Event) : bool :=
  match reg, e with
  | EvConnectAccessAction, EvConnectAccessAction => true
  | EvConnectHalted, EvConnectHalted => true
  | EvSignal SIGINT, EvSignal SIGINT => true
  | EvSignal SIGTERM, EvSignal SIGTERM => true
  | _, _ => false
  end.

(** Does a firing of [src] reach [xthread.deliver]? *)
Definition delivers (src : Source) : bool :=
  match src with
  | UiAction g i => (g =? "Common")%string && (i =? "Quit")%string
  | _ => true
  end.
(** ** Basic facts about the monad *)

Lemma log_nil p : log p [] = p.
Proof. destruct p; unfold log; simpl; now rewrite app_nil_r. Qed.

Lemma log_log p a b : log (log p a) b = log p (a ++ b).
Proof. unfold log; simpl; now rewrite List.app_assoc. Qed.

Lemma trace_log p evs : trace (log p evs) = trace p ++ evs.
Proof. reflexivity. Qed.

Lemma new_events_log {A} (m : M A) p out evs :
  m p = (out, log p evs) -> new_events m p = evs.
Proof.
  intros H. unfold new_events. rewrite H. simpl.
  rewrite skipn_app, skipn_all, Nat.sub_diag. reflexivity.
Qed.

Lemma bind_normal {A B} (m : M A) (k : A -> M B) p a p' :
  m p = (Normal a, p') -> bind m k p = k a p'.
Proof. intros H. unfold bind. now rewrite H. Qed.

Lemma bind_emit {B} e (k : unit -> M B) p :
  bind (emit e) k p = k tt (log p [e]).
Proof. reflexivity. Qed.

(** Runs the straight-line part of a computation, collecting the calls
    it logs into a single [log]. *)
Ltac run_calls :=
  unfold cerr_put, cout_put, deliver, strlen, cstr, when, bind, ret, emit, exit;
  simpl; rewrite ?log_log; simpl.

Lemma tokens_app a b : tokens (a ++ b) = tokens a ++ tokens b.
Proof.
  induction a as [|e a IH]; simpl; [reflexivity|].
  destruct e; simpl; now rewrite ?IH.
Qed.

Lemma tokens_cerr l : tokens (map EvCerr l) = [].
Proof. induction l; auto. Qed.

(** ** The producers *)

Lemma access_action_quit p :
  access_action "Common" "Quit" p = (Normal tt, log p [EvDeliver "x"]).
Proof. reflexivity. Qed.

Lemma access_action_other g i p :
  ~ (g = "Common" /\ i = "Quit") -> access_action g i p = (Normal tt, p).
Proof.
  intros H. unfold access_action.
  destruct (String.eqb_spec g "Common"), (String.eqb_spec i "Quit");
    simpl; try reflexivity.
  exfalso; auto.
Qed.

Lemma engine_halted_spec reason p :
  engine_halted reason p
  = (Normal tt, log p (map EvCerr (halt_message reason) ++ [EvDeliver "x"])).
Proof.
  destruct reason as [[|c r]|]; unfold engine_halted; run_calls; reflexivity.
Qed.

Lemma wearedone_spec sig p :
  wearedone sig p
  = (Normal tt, log p [EvCerr "caught signal - terminating."; EvCerr endl; EvDeliver "x"]).
Proof. unfold wearedone; run_calls; reflexivity. Qed.

Lemma fire_spec src p : fire src p = (Normal tt, log p (fire_events src)).
Proof.
  destruct src as [sig|reason|g i]; simpl.
  - apply wearedone_spec.
  - apply engine_halted_spec.
  - unfold access_action.
    destruct ((g =? "Common")%string && (i =? "Quit")%string);
      [reflexivity | now rewrite log_nil].
Qed.

Lemma fire_all_spec srcs p :
  fire_all srcs p = (Normal tt, log p (flat_map fire_events srcs)).
Proof.
  revert p; induction srcs as [|src rest IH]; intros p; simpl.
  - now rewrite log_nil.
  - rewrite (bind_normal _ _ _ _ _ (fire_spec src p)), IH, log_log. reflexivity.
Qed.

(** ** The wait loop *)

Lemma wait_for_shutdown_spec calls p :
  wait_for_shutdown calls p
  = (if shutdown_requested calls then Normal tt else Blocked,
     log p (wait_trace calls)).
Proof.
  revert p; induction calls as [|[fired r] rest IH]; intros p; simpl.
  - unfold blocked. now rewrite log_nil.
  - rewrite (bind_normal _ _ _ _ _ (fire_all_spec fired p)), bind_emit, log_log.
    destruct (r =? 0).
    + rewrite IH, log_log, <- List.app_assoc. reflexivity.
    + reflexivity.
Qed.


(** ** Option parsing *)

Lemma with_client_same p : with_client p (backend_client_name p) = p.
Proof. now destruct p. Qed.

Lemma with_client_twice p a b : with_client (with_client p a) b = with_client p b.
Proof. reflexivity. Qed.

Lemma cout_all_spec l p : cout_all l p = (Normal tt, log p (map EvCout l)).
Proof.
  revert p; induction l as [|s l IH]; intros p; simpl.
  - now rewrite log_nil.
  - unfold cout_put. now rewrite bind_emit, IH, log_log.
Qed.

Lemma print_help_spec build p :
  print_help build p = (Normal tt, log p (map EvCout (help_text build))).
Proof. apply cout_all_spec. Qed.

Lemma print_version_spec build p :
  print_version build p = (Normal tt, log p (map EvCout (version_text build))).
Proof.
  unfold print_version, version_text.
  destruct (GNUC_VERSION build); run_calls; reflexivity.
Qed.

Lemma cout_is_option_event l : forallb is_option_event (map EvCout l) = true.
Proof. induction l; simpl; auto. Qed.

Section OptionLoop.

Variable build : Build.
Variable env : Env.

Lemma option_loop_spec results : forall use_vst try_hw p,
  exists out name opts,
    option_loop build env results use_vst try_hw p
      = (out, log (with_client p name) opts)
    /\ forallb is_option_event opts = true
    /\ match out with
       | Normal _ =>
           name = chosen_client_name results (backend_client_name p)
           /\ options_accepted env results = true
       | Exited n => (n = 0 \/ n = 1) /\ options_accepted env results = false
       | Undefined => options_accepted env results = false
       | _ => False
       end.
Proof.
  induction results as [|[c optarg] rest IH]; intros use_vst try_hw p.
  { exists (Normal (use_vst, try_hw)), (backend_client_name p), [].
    simpl. rewrite with_client_same, log_nil. auto. }
  (* a step that logs [evs], may rename the client, and loops *)
  assert (Hloop : forall evs nm uv hw,
    exists out name opts,
      option_loop build env rest uv hw (log (with_client p nm) evs)
        = (out, log (with_client p name) (evs ++ opts))
      /\ (forallb is_option_event evs = true ->
          forallb is_option_event (evs ++ opts) = true)
      /\ match out with
         | Normal _ =>
             name = chosen_client_name rest nm /\ options_accepted env rest = true
         | Exited n => (n = 0 \/ n = 1) /\ options_accepted env rest = false
         | Undefined => options_accepted env rest = false
         | _ => False
         end).
  { intros evs nm uv hw.
    destruct (IH uv hw (log (with_client p nm) evs)) as (out & name & opts & E & F & G).
    exists out, name, opts. rewrite E. split; [|split].
    - unfold log, with_client; simpl. now rewrite List.app_assoc.
    - intros Hevs. rewrite forallb_app, Hevs, F. reflexivity.
    - exact G. }
  simpl.
  destruct (c =? -1) eqn:Em1.
  { exists (Normal (use_vst, try_hw)), (backend_client_name p), [].
    rewrite with_client_same, log_nil. auto. }
  destruct (c =? 0) eqn:E0.
  { destruct (Hloop [] (backend_client_name p) use_vst try_hw)
      as (out & name & opts & E & F & G).
    rewrite log_nil, with_client_same in E.
    assert ((c =? chr "c") = false) as -> by (apply Z.eqb_eq in E0; subst; reflexivity).
    exists out, name, opts. auto. }
  destruct (c =? chr "v") eqn:Ev.
  { exists (Exited 0), (backend_client_name p), (map EvCout (version_text build)).
    rewrite (bind_normal _ _ _ _ _ (print_version_spec build p)), with_client_same.
    unfold exit. rewrite cout_is_option_event. auto. }
  destruct (c =? chr "h") eqn:Eh.
  { exists (Exited 0), (backend_client_name p), (map EvCout (help_text build)).
    rewrite (bind_normal _ _ _ _ _ (print_help_spec build p)), with_client_same.
    unfold exit. rewrite cout_is_option_event. auto. }
  destruct (c =? chr "c") eqn:Ec.
  { destruct optarg as [nm|].
    - destruct (Hloop [] nm use_vst try_hw) as (out & name & opts & E & F & G).
      rewrite log_nil in E. exists out, name, opts. auto.
    - exists Undefined, (backend_client_name p), [].
      rewrite with_client_same, log_nil. auto. }
  destruct (c =? chr "B") eqn:EB.
  { destruct (Hloop [EvSetBypassAllLoadedPlugins true] (backend_client_name p)
                    use_vst try_hw) as (out & name & opts & E & F & G).
    rewrite with_client_same in E. exists out, name, (EvSetBypassAllLoadedPlugins true :: opts).
    rewrite bind_emit. auto. }
  destruct (c =? chr "d") eqn:Ed.
  { destruct (Hloop [EvSetDisableAllLoadedPlugins true] (backend_client_name p)
                    use_vst try_hw) as (out & name & opts & E & F & G).
    rewrite with_client_same in E. exists out, name, (EvSetDisableAllLoadedPlugins true :: opts).
    rewrite bind_emit. auto. }
  destruct (c =? chr "D") eqn:ED.
  { unfold PBD_parse_debug_options.
    destruct (parse_debug_options env optarg =? 0) eqn:Er.
    - destruct (Hloop [EvParseDebugOptions optarg (parse_debug_options env optarg)]
                      (backend_client_name p) use_vst try_hw)
        as (out & name & opts & E & F & G).
      rewrite with_client_same in E.
      exists out, name, (EvParseDebugOptions optarg (parse_debug_options env optarg) :: opts).
      unfold bind at 1 2 3; simpl. rewrite Er; simpl. auto.
    - exists (Exited 1), (backend_client_name p),
        [EvParseDebugOptions optarg (parse_debug_options env optarg)].
      rewrite with_client_same.
      unfold bind, emit, ret, when, exit; simpl. rewrite Er; simpl. auto. }
  destruct (c =? chr "O") eqn:EO.
  { destruct (Hloop [] (backend_client_name p) use_vst false)
      as (out & name & opts & E & F & G).
    rewrite log_nil, with_client_same in E. exists out, name, opts. auto. }
  destruct (c =? chr "P") eqn:EP.
  { destruct (Hloop [EvSetConnectingBlocked true] (backend_client_name p)
                    use_vst try_hw) as (out & name & opts & E & F & G).
    rewrite with_client_same in E. exists out, name, (EvSetConnectingBlocked true :: opts).
    rewrite bind_emit. auto. }
  destruct (c =? chr "V") eqn:EV.
  { destruct (Hloop [] (backend_client_name p)
                    (if WINDOWS_VST_SUPPORT build then false else use_vst) try_hw)
      as (out & name & opts & E & F & G).
    rewrite log_nil, with_client_same in E. exists out, name, opts. auto. }
  exists (Exited 1), (backend_client_name p), (map EvCout (help_text build)).
  rewrite (bind_normal _ _ _ _ _ (print_help_spec build p)), with_client_same.
  unfold exit. rewrite cout_is_option_event. auto.
Qed.

End OptionLoop.

(** ** Start-up *)

Section Startup.

Variable build : Build.
Variable env : Env.

Lemma load_session_spec dir state p :
  load_session env dir state p =
  let name := backend_name p in
  let client := backend_client_name p in
  let s := {| session_dir := dir; session_state := state |} in
  if negb (set_backend env name client "") then
    (Exited 1,
     log p (engine_setup
              ++ [EvSetBackend name client "" false;
                  EvCerr ("Cannot set Audio/MIDI engine backend" ++ nl)%string]))
  else if negb (engine_start env =? 0) then
    (Exited 1,
     log p (engine_setup
              ++ [EvSetBackend name client "" true; EvEngineStart (engine_start env);
                  EvCerr ("Cannot start Audio/MIDI engine" ++ nl)%string]))
  else
    match session_constructor env dir state with
    | Some e =>
        (Thrown e,
         log p (engine_setup
                  ++ [EvSetBackend name client "" true; EvEngineStart 0;
                      EvNewSession dir state (Some e)]))
    | None =>
        (Normal s,
         log p (engine_setup
                  ++ [EvSetBackend name client "" true; EvEngineStart 0;
                      EvNewSession dir state None; EvSetSession s]))
    end.
Proof.
  unfold load_session, engine_set_backend, engine_start_call, new_Session,
    get_backend_name, get_backend_client_name, engine_setup.
  destruct (set_backend env (backend_name p) (backend_client_name p) "") eqn:Eb;
    [|run_calls; rewrite Eb; run_calls; reflexivity].
  destruct (engine_start env =? 0) eqn:Es;
    [|run_calls; rewrite Eb; simpl; rewrite Es; run_calls; reflexivity].
  apply Z.eqb_eq in Es.
  destruct (session_constructor env dir state) eqn:Et;
    run_calls; rewrite Eb; simpl; rewrite Es; simpl; rewrite ?Et;
    unfold throw; simpl; rewrite ?log_log; reflexivity.
Qed.

End Startup.

(** ** Every run has one of the nine shapes *)

Lemma set_backend_client_name_spec s p :
  set_backend_client_name s p = (Normal tt, with_client p s).
Proof. reflexivity. Qed.

Lemma bind_eq {A B} (m : M A) (k : A -> M B) p out p' :
  m p = (out, p') ->
  bind m k p = match out with
               | Normal a => k a p'
               | Exited n => (Exited n, p')
               | Thrown e => (Thrown e, p')
               | Undefined => (Undefined, p')
               | Blocked => (Blocked, p')
               end.
Proof. intros H. unfold bind. rewrite H. now destruct out. Qed.

Ltac expose_calls :=
  cbv beta iota zeta delta
    [bind when ret exit emit throw undefined try_catch cerr_put ARDOUR_init cstr].

Lemma main_shape build env out p :
  main build env initial_process = (out, p) -> Run build env out (trace p).
Proof.
  unfold main.
  destruct (option_loop_spec build env (getopt_results env) true true
              (with_client initial_process (downcase (PROGRAM_NAME build))))
    as (out1 & name & opts & E & F & G).
  rewrite (bind_normal _ _ _ _ _ (set_backend_client_name_spec _ _)).
  rewrite (bind_eq _ _ _ _ _ E). clear E.
  rewrite with_client_twice.
  set (p1 := log (with_client initial_process name) opts).
  assert (Hp1 : trace p1 = opts) by reflexivity.
  destruct out1 as [[use_vst try_hw]|n|e| |]; try contradiction.
  2:{ destruct G as [G Hacc]. intros [= ? ?]; subst out p. rewrite Hp1.
      apply RunOptionsEnd; auto. destruct G as [->| ->]; auto. }
  2:{ intros [= ? ?]; subst out p. rewrite Hp1. apply RunOptionsEnd; auto. }
  destruct G as [Hname Hacc]. change (name = client_name build env) in Hname.
  expose_calls.
  destruct (argc env <? 3) eqn:Ea.
  { rewrite print_help_spec. cbv beta iota. intros [= ? ?]; subst out p.
    apply Z.ltb_lt in Ea. rewrite trace_log, Hp1. now apply RunUsage. }
  apply Z.ltb_ge in Ea.
  destruct (ardour_init env use_vst try_hw (LOCALEDIR build)) eqn:Ei; cbv beta iota delta [negb].
  2:{ intros [= ? ?]; subst out p. rewrite !log_log, trace_log, Hp1.
      now apply RunInitFailed. }
  set (p2 := log p1 [EvArdourInit use_vst try_hw (LOCALEDIR build) true]).
  assert (Hp2 : trace p2 = opts ++ [EvArdourInit use_vst try_hw (LOCALEDIR build) true])
    by (unfold p2; now rewrite trace_log, Hp1).
  assert (Hnull : (positional_count env < 2)%nat -> Run build env Undefined (trace p2))
    by (intros; rewrite Hp2; now apply RunNullArgument).
  unfold argv_at.
  destruct (nth_error (argv env) (getopt_optind env)) as [a1|] eqn:E1.
  2:{ apply nth_error_None in E1.
      assert (E2 : nth_error (argv env) (getopt_optind env + 1) = None)
        by (apply nth_error_None; lia).
      rewrite E2.
      destruct (getopt_optind env =? _)%nat, (getopt_optind env + 1 =? _)%nat;
        cbv beta iota delta [ret undefined];
        intros [= ? ?]; subst out p; apply Hnull; unfold positional_count; lia. }
  destruct (nth_error (argv env) (getopt_optind env + 1)) as [a2|] eqn:E2.
  2:{ apply nth_error_None in E2.
      destruct (getopt_optind env + 1 =? _)%nat;
        cbv beta iota delta [ret undefined];
        intros [= ? ?]; subst out p; apply Hnull; unfold positional_count; lia. }
  cbv beta iota delta [ret].
  rewrite load_session_spec. cbv zeta.
  change (backend_name p2) with "JACK".
  change (backend_client_name p2) with name. rewrite Hname.
  destruct (set_backend env "JACK" (client_name build env) "") eqn:Eb; cbv beta iota delta [negb].
  2:{ intros [= ? ?]; subst out p. rewrite trace_log, Hp2, <- List.app_assoc.
      now apply RunBackendUnavailable. }
  destruct (engine_start env =? 0) eqn:Es; cbv beta iota delta [negb].
  2:{ intros [= ? ?]; subst out p. rewrite trace_log, Hp2, <- List.app_assoc.
      apply RunStartFailed; auto. now apply Z.eqb_neq. }
  destruct (session_constructor env a1 a2) as [e|] eqn:Et; cbv beta iota.
  { assert (He : forall q, q = log p2 (engine_setup
                    ++ [EvSetBackend "JACK" (client_name build env) "" true;
                        EvEngineStart 0; EvNewSession a1 a2 (Some e)]
                    ++ map EvCerr (report e)) ->
                  (Exited (EXIT_FAILURE build), q) = (out, p) ->
                  Run build env out (trace p)).
    { intros q -> [= ? ?]; subst out p. rewrite trace_log, Hp2, <- List.app_assoc.
      now apply RunConstructionFailed. }
    destruct e; apply He; rewrite !log_log; reflexivity. }
  rewrite wait_for_shutdown_spec.
  set (s := {| session_dir := a1; session_state := a2 |}).
  destruct (shutdown_requested (receive_calls env)) eqn:Ew; cbv beta iota;
    intros [= ? ?]; subst out p; rewrite !log_log, trace_log, Hp2, <- List.app_assoc.
  - now apply (RunCompleted build env opts use_vst try_hw s).
  - now apply (RunBlocked build env opts use_vst try_hw s).
Qed.

Theorem run_shape build env :
  Run build env (outcome_of build env) (events_of build env).
Proof.
  unfold outcome_of, events_of, run. apply main_shape.
  now destruct (main build env initial_process).
Qed.

(** ** Traces by kind of call *)

Lemma existsb_none (P Q : Event -> bool) l :
  (forall e, P e = true -> Q e = false) ->
  forallb P l = true -> existsb Q l = false.
Proof.
  intros HPQ. induction l as [|e l IH]; simpl; [reflexivity|].
  intros [He Hl]%andb_prop. now rewrite (HPQ e He), IH.
Qed.

Lemma filter_none (P Q : Event -> bool) l :
  (forall e, P e = true -> Q e = false) ->
  forallb P l = true -> filter Q l = [].
Proof.
  intros HPQ. induction l as [|e l IH]; simpl; [reflexivity|].
  intros [He Hl]%andb_prop. now rewrite (HPQ e He), IH.
Qed.

Lemma in_kind (P : Event -> bool) l e :
  forallb P l = true -> In e l -> P e = true.
Proof. intros H. now apply forallb_forall. Qed.

Lemma cerr_is_wait_event l : forallb is_wait_event (map EvCerr l) = true.
Proof. induction l; simpl; auto. Qed.

Lemma fire_events_kind src : forallb is_wait_event (fire_events src) = true.
Proof.
  destruct src as [sig|reason|g i]; simpl; try reflexivity.
  - rewrite forallb_app, cerr_is_wait_event. reflexivity.
  - now destruct (_ && _).
Qed.

Lemma fire_events_no_receive src r : ~ In (EvReceive r) (fire_events src).
Proof.
  destruct src as [sig|[[|c s]|]|g i]; simpl; try (intuition discriminate).
  destruct (_ && _); simpl; intuition discriminate.
Qed.

Lemma fire_events_token src msg : In (EvDeliver msg) (fire_events src) -> msg = "x"%char.
Proof.
  destruct src as [sig|[[|c s]|]|g i]; simpl; try (intuition congruence).
  destruct (_ && _); simpl; intuition congruence.
Qed.

Lemma fired_kind srcs : forallb is_wait_event (flat_map fire_events srcs) = true.
Proof.
  induction srcs as [|src rest IH]; simpl; [reflexivity|].
  now rewrite forallb_app, fire_events_kind, IH.
Qed.

Lemma fired_no_receive srcs r : ~ In (EvReceive r) (flat_map fire_events srcs).
Proof.
  rewrite in_flat_map. intros (src & _ & H). now apply fire_events_no_receive in H.
Qed.

Lemma fired_token srcs msg :
  In (EvDeliver msg) (flat_map fire_events srcs) -> msg = "x"%char.
Proof.
  rewrite in_flat_map. intros (src & _ & H). now apply fire_events_token in H.
Qed.

Lemma wait_trace_kind calls : forallb is_wait_event (wait_trace calls) = true.
Proof.
  induction calls as [|[fired r] rest IH]; simpl; [reflexivity|].
  rewrite forallb_app, fired_kind. simpl. now destruct (r =? 0).
Qed.

Lemma wait_trace_token calls msg :
  In (EvDeliver msg) (wait_trace calls) -> msg = "x"%char.
Proof.
  induction calls as [|[fired r] rest IH]; simpl; [tauto|].
  rewrite in_app_iff. simpl. intros [H|[H|H]].
  - now apply fired_token in H.
  - discriminate.
  - destruct (r =? 0); [auto | contradiction].
Qed.

(** While no call of [receive] returns non-zero, every call logged
    returned zero. *)
Lemma wait_trace_blocked calls r :
  shutdown_requested calls = false -> In (EvReceive r) (wait_trace calls) -> r = 0.
Proof.
  induction calls as [|[fired r0] rest IH]; simpl; [tauto|].
  destruct (Z.eqb_spec r0 0) as [->|Hr0]; [|discriminate].
  intros Hreq. rewrite in_app_iff. simpl. intros [H|[H|H]].
  - now apply fired_no_receive in H.
  - congruence.
  - auto.
Qed.

(** The wait ends with the first call of [receive] that returns non-zero. *)
Lemma wait_trace_requested calls :
  shutdown_requested calls = true ->
  exists before r,
    wait_trace calls = before ++ [EvReceive r]
    /\ r <> 0
    /\ forall r', In (EvReceive r') before -> r' = 0.
Proof.
  induction calls as [|[fired r0] rest IH]; simpl; [discriminate|].
  destruct (Z.eqb_spec r0 0) as [->|Hr0]; intros Hreq.
  - destruct (IH Hreq) as (before & r & E & Hr & Hzero).
    exists (flat_map fire_events fired ++ EvReceive 0 :: before), r.
    rewrite E, <- List.app_assoc. repeat split; auto.
    intros r'. rewrite in_app_iff. simpl. intros [H|[H|H]].
    + now apply fired_no_receive in H.
    + congruence.
    + auto.
  - exists (flat_map fire_events fired), r0. repeat split; auto.
    intros r' H. now apply fired_no_receive in H.
Qed.

(** ** The producers: what the three callbacks do *)

(** C3: the UI action callback delivers a token to the shutdown channel
    if and only if it is called with the pair ("Common", "Quit"); called
    with any other pair it returns leaving the process exactly as it was:
    nothing delivered, nothing written, no teardown, no error. *)
Theorem access_action_delivers_iff_quit (action_group action_item : string) (p : Process) :
  (delivered (access_action action_group action_item) p <> []
   <-> action_group = "Common" /\ action_item = "Quit")
  /\ (action_group = "Common" /\ action_item = "Quit" ->
      access_action action_group action_item p = (Normal tt, log p [EvDeliver "x"]))
  /\ (~ (action_group = "Common" /\ action_item = "Quit") ->
      access_action action_group action_item p = (Normal tt, p)).
Proof.
  assert (Hquit : action_group = "Common" /\ action_item = "Quit" ->
                  access_action action_group action_item p
                  = (Normal tt, log p [EvDeliver "x"])).
  { intros [-> ->]. apply access_action_quit. }
  split; [|split; [exact Hquit | apply access_action_other]].
  split.
  - intros Hdel.
    destruct (String.eqb_spec action_group "Common") as [Hg|Hg];
      destruct (String.eqb_spec action_item "Quit") as [Hi|Hi]; auto;
      exfalso; apply Hdel; unfold delivered;
      rewrite (new_events_log _ p (Normal tt) []);
      try reflexivity; rewrite log_nil; apply access_action_other; tauto.
  - intros H. unfold delivered.
    rewrite (new_events_log _ _ _ _ (Hquit H)). discriminate.
Qed.

(** C4: whatever the reason, the engine-halt callback first writes its
    diagnostic to the error stream (with the reason in it when there is a
    non-empty one), then delivers exactly one token, and does nothing
    else: the process is what it was plus these calls, so the session is
    not touched and no teardown step is made. *)
Theorem engine_halted_logs_then_delivers (reason : option string) (p : Process) :
  exists msg,
    engine_halted reason p = (Normal tt, log p (map EvCerr msg ++ [EvDeliver "x"]))
    /\ msg <> []
    /\ (forall s, reason = Some s -> s <> "" ->
        cerr_text (map EvCerr msg)
        = ("The audio backend has been shutdown: " ++ s ++ nl)%string)
    /\ delivered (engine_halted reason) p = ["x"%char]
    /\ teardown_steps (new_events (engine_halted reason) p) = [].
Proof.
  exists (halt_message reason).
  pose proof (engine_halted_spec reason p) as Hspec.
  unfold delivered. rewrite (new_events_log _ _ _ _ Hspec).
  split; [exact Hspec|]. split; [now destruct reason as [[|c r]|]|].
  split.
  - intros s -> Hs. destruct s as [|c r]; [contradiction|]. reflexivity.
  - unfold teardown_steps. rewrite tokens_app, filter_app.
    rewrite (filter_none is_wait_event is_teardown);
      [| now intros [] | apply cerr_is_wait_event].
    split; [|reflexivity].
    now rewrite tokens_cerr.
Qed.

(** C10: the engine-halt callback returns for every reason argument,
    and with a null pointer or an empty string it never reads the reason:
    it writes the fixed line "The audio backend has been shutdown."
    and still delivers the token. *)
Theorem engine_halted_without_reason (reason : option string) (p : Process) :
  reason = None \/ reason = Some "" ->
  engine_halted reason p
  = (Normal tt,
     log p [EvCerr "The audio backend has been shutdown"; EvCerr "."; EvCerr endl;
            EvDeliver "x"])
  /\ cerr_text (new_events (engine_halted reason) p)
     = ("The audio backend has been shutdown." ++ nl)%string
  /\ delivered (engine_halted reason) p = ["x"%char]
  /\ (forall reason' p', fst (engine_halted reason' p') = Normal tt).
Proof.
  intros H.
  assert (Hrun : engine_halted reason p
                 = (Normal tt,
                    log p [EvCerr "The audio backend has been shutdown"; EvCerr ".";
                           EvCerr endl; EvDeliver "x"])).
  { rewrite engine_halted_spec. now destruct H as [-> | ->]. }
  unfold delivered. rewrite (new_events_log _ _ _ _ Hrun).
  repeat split; auto.
  intros reason' p'. now rewrite engine_halted_spec.
Qed.

Lemma engine_halted_without_reason_witness :
  engine_halted None initial_process
  = (Normal tt,
     log initial_process
         [EvCerr "The audio backend has been shutdown"; EvCerr "."; EvCerr endl;
          EvDeliver "x"]).
Proof.
  apply (engine_halted_without_reason None initial_process). left. reflexivity.
Defined.

(** ** Whole runs *)

Lemma not_option_event opts e :
  forallb is_option_event opts = true -> is_option_event e = false -> ~ In e opts.
Proof. intros F He H. apply (in_kind _ _ _ F) in H. congruence. Qed.

Lemma not_wait_event l e :
  forallb is_wait_event l = true -> is_wait_event e = false -> ~ In e l.
Proof. intros F He H. apply (in_kind _ _ _ F) in H. congruence. Qed.

(** Splits a membership in a trace into its segments and closes the
    segments that cannot hold the event. *)
Ltac in_segments H :=
  unfold teardown_sequence, engine_setup, session_startup in H;
  repeat first [rewrite in_app_iff in H | progress simpl in H];
  repeat match type of H with
         | _ \/ _ => destruct H as [H|H]
         end;
  try discriminate H; try contradiction;
  try (exfalso;
       match type of H with
       | In ?e ?l =>
           match goal with
           | F : forallb is_option_event l = true |- _ =>
               exact (not_option_event l e F eq_refl H)
           end
       | In ?e (wait_trace ?calls) =>
           exact (not_wait_event _ e (wait_trace_kind calls) eq_refl H)
       | In ?e (map _ _) =>
           apply in_map_iff in H; destruct H as (? & H & _); discriminate H
       end).

(** Side conditions of [filter_none] and [existsb_none]: two kinds of
    call are disjoint, a segment is of one kind. *)
Ltac kind_side :=
  first [ now intros []
        | assumption
        | apply cout_is_option_event
        | apply wait_trace_kind
        | apply cerr_is_wait_event ].

(** Evaluates [teardown_steps], [reached_running] or [existsb] over a
    trace given by segments. *)
Ltac by_segments :=
  unfold teardown_steps, reached_running, engine_setup, session_startup,
    teardown_sequence;
  repeat first
    [ rewrite filter_app
    | rewrite existsb_app
    | match goal with
      | |- context [filter ?Q ?l] =>
          rewrite (filter_none is_option_event Q l) by kind_side
      | |- context [filter ?Q ?l] =>
          rewrite (filter_none is_wait_event Q l) by kind_side
      | |- context [existsb ?Q ?l] =>
          rewrite (existsb_none is_option_event Q l) by kind_side
      | |- context [existsb ?Q ?l] =>
          rewrite (existsb_none is_wait_event Q l) by kind_side
      end
    | progress simpl ].

(** C1: in every run that reaches Running (the transport request for the
    session [s] has been made) and in which a call of receive returns with
    a delivery (non-zero), the trace ends with that call followed by
    exactly the four teardown steps in the order remove_session, delete s,
    stop, destroy; these are the only teardown steps of the run, every
    earlier call of receive had returned zero, so receive is not called
    again after it has succeeded, and main returns 0. *)
Theorem teardown_runs_once_in_order build env s :
  In (EvRequestTransportSpeed s) (events_of build env) ->
  (exists r, r <> 0 /\ In (EvReceive r) (events_of build env)) ->
  exists before r,
    events_of build env = before ++ EvReceive r :: teardown_sequence s
    /\ r <> 0
    /\ (forall r', In (EvReceive r') before -> r' = 0)
    /\ teardown_steps before = []
    /\ teardown_steps (events_of build env) = teardown_sequence s
    /\ outcome_of build env = Normal 0.
Proof.
  pose proof (run_shape build env) as R.
  remember (outcome_of build env) as out. remember (events_of build env) as evs.
  intros Hrun (r & Hr & Hrecv).
  destruct R as [out opts F A O | opts F A L | opts uv hw F L | opts uv hw F L N
                | opts uv hw F L | opts uv hw r0 F L Hr0 | opts uv hw dir state e F L
                | opts uv hw s' F L W | opts uv hw s' F L W];
    try (in_segments Hrun; fail).
  - (* the wait never ends: no call of receive returned non-zero *)
    exfalso. in_segments Hrecv. apply Hr. eapply wait_trace_blocked; eassumption.
  - assert (s' = s) as -> by (in_segments Hrun; congruence).
    destruct (wait_trace_requested _ W) as (wb & r1 & Ew & Hr1 & Hzero).
    exists (opts ++ EvArdourInit uv hw (LOCALEDIR build) true :: engine_setup
                 ++ session_startup build env s ++ wb), r1.
    split; [|split; [exact Hr1|split; [|split; [|split; [|reflexivity]]]]].
    + rewrite Ew. unfold engine_setup, session_startup.
      repeat first [rewrite <- List.app_assoc | progress simpl]. reflexivity.
    + intros r' H. in_segments H. now apply Hzero.
    + assert (Hwb : forallb is_wait_event wb = true).
      { pose proof (wait_trace_kind (receive_calls env)) as K.
        rewrite Ew, forallb_app in K. now apply andb_prop in K. }
      by_segments. reflexivity.
    + by_segments. reflexivity.
Qed.

Ltac find_event := vm_compute; repeat first [left; reflexivity | right].

Lemma teardown_runs_once_in_order_witness :
  exists before r,
    events_of sample_build env_halt_then_signal
    = before ++ EvReceive r :: teardown_sequence sample_session
    /\ r <> 0
    /\ (forall r', In (EvReceive r') before -> r' = 0)
    /\ teardown_steps before = []
    /\ teardown_steps (events_of sample_build env_halt_then_signal)
       = teardown_sequence sample_session
    /\ outcome_of sample_build env_halt_then_signal = Normal 0.
Proof.
  apply (teardown_runs_once_in_order sample_build env_halt_then_signal sample_session).
  - find_event.
  - exists 1. split; [lia | find_event].
Defined.

(** C2: a run whose trace holds the complete teardown sequence ends with
    exit status 0; a run in which a start-up step fails (ARDOUR::init, the
    backend selection, the engine start or the session construction) ends
    with a non-zero exit status and never makes the transport request that
    enters Running.  The status of a failed construction is EXIT_FAILURE,
    which is taken to be non-zero. *)
Theorem exit_status_follows_startup build env :
  EXIT_FAILURE build <> 0 ->
  (forall s, teardown_steps (events_of build env) = teardown_sequence s ->
             exit_status (outcome_of build env) = Some 0)
  /\ (existsb failed_step (events_of build env) = true ->
      exists status,
        exit_status (outcome_of build env) = Some status
        /\ status <> 0
        /\ reached_running (events_of build env) = false).
Proof.
  intros Hfail.
  pose proof (run_shape build env) as R.
  remember (outcome_of build env) as out. remember (events_of build env) as evs.
  destruct R as [out opts F A O | opts F A L | opts uv hw F L | opts uv hw F L N
                | opts uv hw F L | opts uv hw r0 F L Hr0 | opts uv hw dir state e F L
                | opts uv hw s' F L W | opts uv hw s' F L W];
    (split; [intros s | ]); by_segments; try discriminate.
  - intros _. exists 1.
    split; [reflexivity | split; [lia | by_segments; reflexivity]].
  - intros _. exists 1.
    split; [reflexivity | split; [lia | by_segments; reflexivity]].
  - intros _. exists 1.
    split; [reflexivity | split; [lia | by_segments; reflexivity]].
  - intros _. exists (EXIT_FAILURE build).
    split; [reflexivity | split; [assumption | by_segments; reflexivity]].
  - reflexivity.
Qed.

Lemma exit_status_follows_startup_witness :
  exit_status (outcome_of sample_build env_halt_then_signal) = Some 0
  /\ exists status,
       exit_status (outcome_of sample_build env_backend_unavailable) = Some status
       /\ status <> 0
       /\ reached_running (events_of sample_build env_backend_unavailable) = false.
Proof.
  split.
  - apply (exit_status_follows_startup sample_build env_halt_then_signal)
      with (s := sample_session); [discriminate | reflexivity].
  - apply (exit_status_follows_startup sample_build env_backend_unavailable);
      [discriminate | reflexivity].
Defined.

(** C5: when the backend cannot be set or the engine does not start, the
    run ends there: the failed call is followed by its message on the
    error stream and by exit (1), and the trace holds no teardown step. *)
Theorem engine_failure_exits_without_teardown build env :
  (exists name client uuid, In (EvSetBackend name client uuid false) (events_of build env))
  \/ (exists r, r <> 0 /\ In (EvEngineStart r) (events_of build env)) ->
  outcome_of build env = Exited 1
  /\ teardown_steps (events_of build env) = []
  /\ exists before failed msg,
       events_of build env = before ++ [failed; EvCerr msg]
       /\ ((exists name client uuid,
              failed = EvSetBackend name client uuid false
              /\ msg = ("Cannot set Audio/MIDI engine backend" ++ nl)%string)
           \/ (exists r,
                 r <> 0 /\ failed = EvEngineStart r
                 /\ msg = ("Cannot start Audio/MIDI engine" ++ nl)%string)).
Proof.
  pose proof (run_shape build env) as R.
  remember (outcome_of build env) as out. remember (events_of build env) as evs.
  intros H.
  destruct R as [out opts F A O | opts F A L | opts uv hw F L | opts uv hw F L N
                | opts uv hw F L | opts uv hw r0 F L Hr0 | opts uv hw dir state e F L
                | opts uv hw s' F L W | opts uv hw s' F L W];
    (destruct H as [(n & c & u & H) | (r & Hr & H)]; in_segments H; try congruence);
    (split; [reflexivity | split; [by_segments; reflexivity |]]).
  - exists (opts ++ EvArdourInit uv hw (LOCALEDIR build) true :: engine_setup),
      (EvSetBackend "JACK" (client_name build env) "" false),
      ("Cannot set Audio/MIDI engine backend" ++ nl)%string.
    split; [|left; eauto].
    unfold engine_setup. now rewrite <- List.app_assoc.
  - exists (opts ++ EvArdourInit uv hw (LOCALEDIR build) true :: engine_setup
                 ++ [EvSetBackend "JACK" (client_name build env) "" true]),
      (EvEngineStart r0), ("Cannot start Audio/MIDI engine" ++ nl)%string.
    split; [|right; eauto].
    unfold engine_setup. now rewrite <- List.app_assoc.
Qed.

Lemma engine_failure_exits_without_teardown_witness :
  outcome_of sample_build env_backend_unavailable = Exited 1
  /\ teardown_steps (events_of sample_build env_backend_unavailable) = [].
Proof.
  destruct (engine_failure_exits_without_teardown sample_build env_backend_unavailable)
    as (Hout & Hdown & _); [|split; assumption].
  left. exists "JACK", "ardour", "". find_event.
Defined.

(** C6: when the session constructor throws, whatever the exception
    (failed_constructor, PortRegistrationFailure, another standard
    exception, or anything else), it is caught: the trace ends with the
    failed construction followed by the handler's report on the error
    stream, the process exits with EXIT_FAILURE (taken to be non-zero),
    Running is not reached and no teardown step is made. *)
Theorem construction_failure_is_reported build env dir state e :
  EXIT_FAILURE build <> 0 ->
  In (EvNewSession dir state (Some e)) (events_of build env) ->
  (exists before,
     events_of build env
     = before ++ EvNewSession dir state (Some e) :: map EvCerr (report e))
  /\ report e <> []
  /\ outcome_of build env = Exited (EXIT_FAILURE build)
  /\ (exists status, exit_status (outcome_of build env) = Some status /\ status <> 0)
  /\ reached_running (events_of build env) = false
  /\ teardown_steps (events_of build env) = [].
Proof.
  intros Hfail H.
  pose proof (run_shape build env) as R.
  remember (outcome_of build env) as out. remember (events_of build env) as evs.
  destruct R as [out opts F A O | opts F A L | opts uv hw F L | opts uv hw F L N
                | opts uv hw F L | opts uv hw r0 F L Hr0 | opts uv hw dir' state' e' F L
                | opts uv hw s' F L W | opts uv hw s' F L W];
    in_segments H.
  injection H as -> -> ->.
  split; [|split; [now destruct e|split; [reflexivity|split]]].
  3:{ split; by_segments; reflexivity. }
  2:{ exists (EXIT_FAILURE build). split; [reflexivity | assumption]. }
  exists (opts ++ EvArdourInit uv hw (LOCALEDIR build) true :: engine_setup
               ++ [EvSetBackend "JACK" (client_name build env) "" true;
                   EvEngineStart 0]).
  unfold engine_setup. repeat first [rewrite <- List.app_assoc | progress simpl].
    reflexivity.
Qed.

Lemma construction_failure_is_reported_witness :
  outcome_of sample_build env_construction_fails = Exited 1
  /\ reached_running (events_of sample_build env_construction_fails) = false
  /\ teardown_steps (events_of sample_build env_construction_fails) = [].
Proof.
  destruct (construction_failure_is_reported sample_build env_construction_fails
              "dir" "snap" (failed_constructor "failed constructor"))
    as (_ & _ & Hout & _ & Hrun & Hdown).
  - discriminate.
  - find_event.
  - repeat split; assumption.
Defined.

(** C7 does not hold as worded: [hardour -v] has no positional argument,
    yet it prints the version and exits with status 0. *)
Lemma usage_claim_fails_for_version_flag : ~ usage_claim.
Proof.
  intros H.
  destruct (H sample_build env_version) as [Hstatus _].
  - unfold positional_count. simpl. lia.
  - vm_compute in Hstatus. discriminate.
Qed.

(** With a flag in front of a single positional argument the test of
    line 214 passes, and line 227 reads the null pointer [argv[argc]]. *)
Example flag_and_directory_passes_usage_test :
  (positional_count env_flag_and_directory < 2)%nat
  /\ run sample_build env_flag_and_directory
     = (Undefined,
        log (with_client initial_process "ardour")
            [EvArdourInit true false "/usr/share/locale" true]).
Proof. split; [unfold positional_count; simpl; lia | reflexivity]. Qed.

(** C7, amended: when fewer than two arguments follow the program name
    (argc < 3) the engine is never created, configured or started; and
    unless an option ends the run first (-v, -h, an unknown option, a
    rejected -D), the help text is the last thing printed and the process
    exits with status 1. *)
Theorem short_command_line_prints_help build env :
  argc env < 3 ->
  existsb is_engine_init (events_of build env) = false
  /\ (options_accepted env (getopt_results env) = true ->
      outcome_of build env = Exited 1
      /\ exists before, events_of build env = before ++ map EvCout (help_text build)).
Proof.
  intros Hargc.
  pose proof (run_shape build env) as R.
  remember (outcome_of build env) as out. remember (events_of build env) as evs.
  destruct R as [out opts F A O | opts F A L | opts uv hw F L | opts uv hw F L N
                | opts uv hw F L | opts uv hw r0 F L Hr0 | opts uv hw dir state e F L
                | opts uv hw s' F L W | opts uv hw s' F L W];
    try lia.
  - split; [by_segments; reflexivity | congruence].
  - split; [by_segments; reflexivity | eauto].
Qed.

Lemma short_command_line_prints_help_witness :
  existsb is_engine_init (events_of sample_build env_one_argument) = false
  /\ outcome_of sample_build env_one_argument = Exited 1.
Proof.
  destruct (short_command_line_prints_help sample_build env_one_argument)
    as [Hengine Hhelp].
  - unfold argc. simpl. lia.
  - split; [exact Hengine | apply Hhelp; reflexivity].
Defined.

(** C8: each of the three producers hands the same one-byte token 'x'
    to the channel: the signal handler and the engine-halt callback on
    every call, the UI action callback whenever it delivers at all; hence
    every token delivered in any run is 'x'. *)
Theorem producers_deliver_the_same_token :
  (forall sig p, delivered (wearedone sig) p = ["x"%char])
  /\ (forall reason p, delivered (engine_halted reason) p = ["x"%char])
  /\ (forall p, delivered (access_action "Common" "Quit") p = ["x"%char])
  /\ (forall src p msg, In msg (delivered (fire src) p) -> msg = "x"%char)
  /\ (forall build env msg, In (EvDeliver msg) (events_of build env) -> msg = "x"%char).
Proof.
  assert (Hfire : forall src p, delivered (fire src) p = tokens (fire_events src)).
  { intros src p. unfold delivered.
    now rewrite (new_events_log _ _ _ _ (fire_spec src p)). }
  split; [|split; [|split; [|split]]].
  - intros sig p. unfold delivered.
    now rewrite (new_events_log _ _ _ _ (wearedone_spec sig p)).
  - intros reason p. unfold delivered.
    rewrite (new_events_log _ _ _ _ (engine_halted_spec reason p)), tokens_app.
    now rewrite tokens_cerr.
  - intros p. apply (Hfire (UiAction "Common" "Quit") p).
  - intros src p msg. rewrite Hfire.
    destruct src as [sig|[[|c r]|]|g i]; simpl; try (intuition congruence).
    destruct (_ && _); simpl; intuition congruence.
  - intros build env msg H.
    pose proof (run_shape build env) as R.
    remember (outcome_of build env) as out. remember (events_of build env) as evs.
    destruct R as [out opts F A O | opts F A L | opts uv hw F L | opts uv hw F L N
                  | opts uv hw F L | opts uv hw r0 F L Hr0 | opts uv hw dir state e F L
                  | opts uv hw s' F L W | opts uv hw s' F L W];
      in_segments H; eapply wait_trace_token; eassumption.
Qed.

Lemma chosen_client_name_default results default :
  (forall r, In r results -> fst r <> chr "c") ->
  chosen_client_name results default = default.
Proof.
  induction results as [|[c optarg] rest IH]; simpl; intros H; [reflexivity|].
  destruct (c =? -1); [reflexivity|].
  destruct (Z.eqb_spec c (chr "c")) as [Hc|Hc].
  - exfalso. apply (H (c, optarg)); auto.
  - apply IH. intros r Hr. apply H. auto.
Qed.

Lemma chosen_client_name_last before name after default :
  (forall r, In r before -> fst r <> -1 /\ (fst r = chr "c" -> snd r <> None)) ->
  (forall r, In r after -> fst r <> chr "c") ->
  chosen_client_name (before ++ (chr "c", Some name) :: after) default = name.
Proof.
  intros Hafter'. revert default.
  induction before as [|[c optarg] rest IH]; simpl; intros default Hafter.
  - now apply chosen_client_name_default.
  - destruct (Hafter' (c, optarg)) as [Hm1 Hc]; [now left|]. simpl in Hm1, Hc.
    destruct (Z.eqb_spec c (-1)); [contradiction|].
    assert (Hrest : forall r, In r rest ->
                      fst r <> -1 /\ (fst r = chr "c" -> snd r <> None))
      by (intros r Hr; apply Hafter'; now right).
    destruct (Z.eqb_spec c (chr "c")) as [E|E].
    + destruct optarg; [now apply IH | now contradiction Hc].
    + now apply IH.
Qed.

(** C9: in every run, whatever the command line and whatever the
    collaborators answer, the engine is asked for the backend "JACK";
    the client name passed with it is the argument of the last -c, and
    the lowercased program name when no -c is given. *)
Theorem backend_name_is_JACK build env name client uuid ok :
  In (EvSetBackend name client uuid ok) (events_of build env) ->
  name = "JACK"
  /\ client = chosen_client_name (getopt_results env) (downcase (PROGRAM_NAME build))
  /\ ((forall r, In r (getopt_results env) -> fst r <> chr "c") ->
      client = downcase (PROGRAM_NAME build))
  /\ (forall before arg after,
        getopt_results env = before ++ (chr "c", Some arg) :: after ->
        (forall r, In r before -> fst r <> -1 /\ (fst r = chr "c" -> snd r <> None)) ->
        (forall r, In r after -> fst r <> chr "c") ->
        client = arg).
Proof.
  intros H.
  assert (Hshape : name = "JACK" /\ client = client_name build env).
  { pose proof (run_shape build env) as R.
    remember (outcome_of build env) as out. remember (events_of build env) as evs.
    destruct R as [out opts F A O | opts F A L | opts uv hw F L | opts uv hw F L N
                  | opts uv hw F L | opts uv hw r0 F L Hr0 | opts uv hw dir state e F L
                  | opts uv hw s' F L W | opts uv hw s' F L W];
      in_segments H; injection H as <- <- <- <-; auto. }
  destruct Hshape as [-> ->]. unfold client_name.
  split; [reflexivity | split; [reflexivity | split]].
  - intros Hnone. now apply chosen_client_name_default.
  - intros before arg after -> Hbefore Hafter. now apply chosen_client_name_last.
Qed.

Lemma backend_name_is_JACK_witness :
  "JACK" = "JACK" /\ "foo" = chosen_client_name [(chr "c", Some "foo")] "ardour".
Proof.
  destruct (backend_name_is_JACK sample_build env_halt_then_signal
              "JACK" "foo" "" true) as (Hname & Hclient & _).
  - find_event.
  - split; [exact Hname | exact Hclient].
Defined.

(** ** The option loop in closed form *)

Lemma bind_ret_l {A B} (a : A) (k : A -> M B) p : bind (ret a) k p = k a p.
Proof. reflexivity. Qed.

Lemma log_step p a evs b evs' :
  log (with_client (log (with_client p a) evs) b) evs'
  = log (with_client p b) (evs ++ evs').
Proof. unfold log, with_client; simpl. now rewrite List.app_assoc. Qed.

Lemma option_calls_kind env results :
  forallb is_option_event (option_calls env results) = true.
Proof.
  induction results as [|[c optarg] rest IH]; simpl; [reflexivity|].
  destruct (c =? -1); [reflexivity|].
  rewrite forallb_app, IH. unfold option_call.
  repeat match goal with |- context [if ?b then _ else _] => destruct b end;
    reflexivity.
Qed.

Section OptionsClosedForm.

Variable build : Build.
Variable env : Env.

(** Accepted options are worked off one by one: each makes its call,
    sets its flag or names the client, and the loop goes on with the rest. *)
Lemma option_loop_accepted pre : forall rest use_vst try_hw p,
  options_accepted env pre = true ->
  option_loop build env (pre ++ rest) use_vst try_hw p
  = let p' := log (with_client p (chosen_client_name pre (backend_client_name p)))
                  (option_calls env pre) in
    let flags := flags_after build pre use_vst try_hw in
    if no_end pre then option_loop build env rest (fst flags) (snd flags) p'
    else (Normal flags, p').
Proof.
  induction pre as [|[c optarg] pre IH]; intros rest use_vst try_hw p Hacc.
  { simpl. now rewrite with_client_same, log_nil. }
  assert (Hrec : forall evs nm uv hw,
    options_accepted env pre = true ->
    option_loop build env (pre ++ rest) uv hw (log (with_client p nm) evs)
    = let p' := log (with_client p (chosen_client_name pre nm))
                    (evs ++ option_calls env pre) in
      let flags := flags_after build pre uv hw in
      if no_end pre then option_loop build env rest (fst flags) (snd flags) p'
      else (Normal flags, p')).
  { intros evs nm uv hw H. rewrite (IH rest uv hw _ H). cbv zeta.
    now rewrite log_step. }
  assert (Hsame : forall ev, log p [ev] = log (with_client p (backend_client_name p)) [ev])
    by (intros; now rewrite with_client_same).
  assert (Hnil : forall nm, with_client p nm = log (with_client p nm) [])
    by (intros; now rewrite log_nil).
  assert (Hp : p = log (with_client p (backend_client_name p)) [])
    by now rewrite with_client_same, log_nil.
  unfold no_end, option_call in *. simpl in *.
  destruct (c =? -1) eqn:Em1.
  { simpl. unfold ret. now rewrite <- Hp. }
  destruct (c =? 0) eqn:E0.
  { apply Z.eqb_eq in E0; subst c; simpl.
    rewrite Hp at 1. now rewrite (Hrec [] _ _ _ Hacc). }
  destruct (c =? chr "v") eqn:Ev; [discriminate|].
  destruct (c =? chr "h") eqn:Eh; [discriminate|].
  destruct (c =? chr "c") eqn:Ec.
  { apply Z.eqb_eq in Ec; subst c; simpl.
    destruct optarg as [nm|]; [|discriminate].
    unfold cstr. rewrite bind_ret_l.
    rewrite (bind_normal _ _ _ _ _ (set_backend_client_name_spec nm p)).
    rewrite (Hnil nm). now rewrite (Hrec [] _ _ _ Hacc). }
  destruct (c =? chr "B") eqn:EB.
  { apply Z.eqb_eq in EB; subst c; simpl.
    rewrite bind_emit, Hsame. now rewrite (Hrec _ _ _ _ Hacc). }
  destruct (c =? chr "d") eqn:Ed.
  { apply Z.eqb_eq in Ed; subst c; simpl.
    rewrite bind_emit, Hsame. now rewrite (Hrec _ _ _ _ Hacc). }
  destruct (c =? chr "D") eqn:ED.
  { apply Z.eqb_eq in ED; subst c; simpl.
    apply andb_prop in Hacc as [Hr Hacc].
    unfold PBD_parse_debug_options, when, bind at 1 2 3. simpl.
    rewrite Hr. simpl. rewrite Hsame. now rewrite (Hrec _ _ _ _ Hacc). }
  destruct (c =? chr "O") eqn:EO.
  { apply Z.eqb_eq in EO; subst c; simpl.
    rewrite Hp at 1. now rewrite (Hrec [] _ _ _ Hacc). }
  destruct (c =? chr "P") eqn:EP.
  { apply Z.eqb_eq in EP; subst c; simpl.
    rewrite bind_emit, Hsame. now rewrite (Hrec _ _ _ _ Hacc). }
  destruct (c =? chr "V") eqn:EV; [|discriminate].
  apply Z.eqb_eq in EV; subst c; simpl.
  rewrite Hp at 1. now rewrite (Hrec [] _ _ _ Hacc).
Qed.

End OptionsClosedForm.

Lemma option_loop_returns build env results use_vst try_hw p :
  options_accepted env results = true ->
  option_loop build env results use_vst try_hw p
  = (Normal (flags_after build results use_vst try_hw),
     log (with_client p (chosen_client_name results (backend_client_name p)))
         (option_calls env results)).
Proof.
  intros Hacc.
  pose proof (option_loop_accepted build env results [] use_vst try_hw p Hacc) as H.
  rewrite app_nil_r in H. rewrite H. cbv zeta.
  destruct (no_end results); [|reflexivity].
  simpl. unfold ret. now destruct (flags_after build results use_vst try_hw).
Qed.

(** The flags in terms of the options given. *)
Lemma flags_after_given build results : forall use_vst try_hw,
  flags_after build results use_vst try_hw
  = (use_vst && negb (WINDOWS_VST_SUPPORT build && given (chr "V") results),
     try_hw && negb (given (chr "O") results)).
Proof.
  induction results as [|[c optarg] rest IH]; intros use_vst try_hw; simpl.
  { now rewrite andb_false_r, !andb_true_r. }
  destruct (c =? -1).
  { now rewrite andb_false_r, !andb_true_r. }
  destruct (Z.eqb_spec c (chr "O")) as [->|HO].
  { rewrite IH. simpl. now rewrite andb_false_r. }
  destruct (Z.eqb_spec c (chr "V")) as [->|HV]; rewrite IH; simpl; [|reflexivity].
  destruct (WINDOWS_VST_SUPPORT build), use_vst; reflexivity.
Qed.

(** ** The run in closed form *)

Section RunClosedForm.

Variable build : Build.
Variable env : Env.

(** When the options are rejected the run ends inside the option loop. *)
Lemma run_options_rejected :
  options_accepted env (getopt_results env) = false ->
  forallb is_option_event (events_of build env) = true
  /\ (outcome_of build env = Exited 0 \/ outcome_of build env = Exited 1
      \/ outcome_of build env = Undefined).
Proof.
  intros Hrej. unfold outcome_of, events_of, run, main.
  destruct (option_loop_spec build env (getopt_results env) true true
              (with_client initial_process (downcase (PROGRAM_NAME build))))
    as (out1 & name & opts & E & F & G).
  rewrite (bind_normal _ _ _ _ _ (set_backend_client_name_spec _ _)).
  rewrite (bind_eq _ _ _ _ _ E).
  destruct out1 as [[uv hw]|n|e| |]; try contradiction; simpl.
  - destruct G as [_ G]. congruence.
  - destruct G as [[-> | ->] _]; auto.
  - auto.
Qed.

(** When the options are accepted the run is the calls of the options
    followed by what [after_options] describes. *)
Theorem run_options_accepted :
  options_accepted env (getopt_results env) = true ->
  let flags := flags_after build (getopt_results env) true true in
  let rest := after_options build env (fst flags) (snd flags) in
  run build env
  = (fst rest,
     log (with_client initial_process (client_name build env))
         (option_calls env (getopt_results env) ++ snd rest)).
Proof.
  intros Hacc. cbv zeta. unfold run, main.
  rewrite (bind_normal _ _ _ _ _ (set_backend_client_name_spec _ _)).
  rewrite (bind_eq _ _ _ _ _ (option_loop_returns build env _ true true _ Hacc)).
  rewrite with_client_twice.
  change (chosen_client_name _ _) with (client_name build env).
  destruct (flags_after build (getopt_results env) true true) as [use_vst try_hw].
  cbn [fst snd].
  set (p0 := with_client initial_process (client_name build env)).
  set (calls := option_calls env (getopt_results env)).
  unfold after_options.
  expose_calls.
  destruct (argc env <? 3) eqn:Ea.
  { rewrite print_help_spec. cbv beta iota. cbn [fst snd]. now rewrite log_log. }
  destruct (ardour_init env use_vst try_hw (LOCALEDIR build)) eqn:Ei;
    cbv beta iota delta [negb]; cbn [fst snd].
  2:{ now rewrite !log_log. }
  unfold argv_at.
  destruct (nth_error (argv env) (getopt_optind env)) as [a1|] eqn:E1.
  2:{ apply nth_error_None in E1.
      assert (E2 : nth_error (argv env) (getopt_optind env + 1) = None)
        by (apply nth_error_None; lia).
      rewrite E2.
      destruct (getopt_optind env =? _)%nat, (getopt_optind env + 1 =? _)%nat;
        cbv beta iota delta [ret undefined]; cbn [fst snd]; now rewrite !log_log. }
  destruct (nth_error (argv env) (getopt_optind env + 1)) as [a2|] eqn:E2.
  2:{ destruct (getopt_optind env + 1 =? _)%nat;
        cbv beta iota delta [ret undefined]; cbn [fst snd]; now rewrite !log_log. }
  cbv beta iota delta [ret].
  rewrite load_session_spec. cbv zeta.
  change (backend_name (log (log p0 calls) _)) with "JACK".
  change (backend_client_name (log (log p0 calls) _)) with (client_name build env).
  destruct (set_backend env "JACK" (client_name build env) "") eqn:Eb;
    cbv beta iota delta [negb]; cbn [fst snd].
  2:{ now rewrite !log_log. }
  destruct (engine_start env =? 0) eqn:Es; cbv beta iota delta [negb]; cbn [fst snd].
  2:{ now rewrite !log_log. }
  destruct (session_constructor env a1 a2) as [e|] eqn:Et; cbv beta iota.
  { destruct e; cbn [fst snd]; rewrite !log_log; reflexivity. }
  rewrite wait_for_shutdown_spec.
  destruct (shutdown_requested (receive_calls env)) eqn:Ew; cbv beta iota;
    cbn [fst snd]; rewrite !log_log; unfold session_startup, engine_setup;
    repeat first [rewrite <- List.app_assoc | progress simpl]; reflexivity.
Qed.

End RunClosedForm.

Lemma run_accepted_parts build env :
  options_accepted env (getopt_results env) = true ->
  outcome_of build env
  = fst (after_options build env (use_vst_flag build env) (try_hw_flag env))
  /\ events_of build env
     = option_calls env (getopt_results env)
       ++ snd (after_options build env (use_vst_flag build env) (try_hw_flag env)).
Proof.
  intros Hacc. unfold outcome_of, events_of.
  rewrite (run_options_accepted build env Hacc). cbv zeta.
  rewrite flags_after_given. auto.
Qed.

Lemma option_loop_then build env pre rest use_vst try_hw p :
  options_accepted env pre = true ->
  no_end pre = true ->
  option_loop build env (pre ++ rest) use_vst try_hw p
  = option_loop build env rest
      (fst (flags_after build pre use_vst try_hw))
      (snd (flags_after build pre use_vst try_hw))
      (log (with_client p (chosen_client_name pre (backend_client_name p)))
           (option_calls env pre)).
Proof.
  intros Hacc Hend. rewrite (option_loop_accepted build env pre rest _ _ _ Hacc).
  cbv zeta. now rewrite Hend.
Qed.

Lemma run_ends_in_options build env n p :
  option_loop build env (getopt_results env) true true
    (with_client initial_process (downcase (PROGRAM_NAME build))) = (Exited n, p) ->
  run build env = (Exited n, p).
Proof.
  intros H. unfold run, main.
  rewrite (bind_normal _ _ _ _ _ (set_backend_client_name_spec _ _)).
  now rewrite (bind_eq _ _ _ _ _ H).
Qed.

(** ** Options that end the run *)

(** X1: when -v is reached after options that were all accepted, the
    calls of those options have been made, the version line is printed
    and the process exits with status 0; what follows -v on the command
    line, positional arguments included, plays no part. *)
Theorem version_option_ends_run build env pre optarg rest :
  getopt_results env = pre ++ (chr "v", optarg) :: rest ->
  options_accepted env pre = true ->
  no_end pre = true ->
  run build env
  = (Exited 0,
     log (with_client initial_process
            (chosen_client_name pre (downcase (PROGRAM_NAME build))))
         (option_calls env pre ++ map EvCout (version_text build))).
Proof.
  intros Hres Hacc Hend. apply run_ends_in_options.
  rewrite Hres, (option_loop_then _ _ _ _ _ _ _ Hacc Hend).
  simpl option_loop.
  rewrite (bind_normal _ _ _ _ _ (print_version_spec build _)).
  unfold exit. now rewrite log_log.
Qed.

Lemma version_option_ends_run_witness :
  run sample_build env_disable_then_version
  = (Exited 0,
     log (with_client initial_process "ardour")
         (EvSetDisableAllLoadedPlugins true :: map EvCout (version_text sample_build))).
Proof.
  apply (version_option_ends_run sample_build env_disable_then_version
           [(chr "d", None)] None []); reflexivity.
Defined.

(** X2: when -h is reached after options that were all accepted, the
    calls of those options have been made, the help text is printed and
    the process exits with status 0. *)
Theorem help_option_ends_run build env pre optarg rest :
  getopt_results env = pre ++ (chr "h", optarg) :: rest ->
  options_accepted env pre = true ->
  no_end pre = true ->
  run build env
  = (Exited 0,
     log (with_client initial_process
            (chosen_client_name pre (downcase (PROGRAM_NAME build))))
         (option_calls env pre ++ map EvCout (help_text build))).
Proof.
  intros Hres Hacc Hend. apply run_ends_in_options.
  rewrite Hres, (option_loop_then _ _ _ _ _ _ _ Hacc Hend).
  simpl option_loop.
  rewrite (bind_normal _ _ _ _ _ (print_help_spec build _)).
  unfold exit. now rewrite log_log.
Qed.

Lemma help_option_ends_run_witness :
  run sample_build env_block_then_help
  = (Exited 0,
     log (with_client initial_process "ardour")
         (EvSetConnectingBlocked true :: map EvCout (help_text sample_build))).
Proof.
  apply (help_option_ends_run sample_build env_block_then_help
           [(chr "P", None)] None []); reflexivity.
Defined.

(** X3: an option code for which the switch has no case (the '?' of
    an unknown option, but also 'U', which the option table declares)
    makes the program print the help text and exit with status 1, after
    the calls of the options before it. *)
Theorem unhandled_option_prints_help build env pre c optarg rest :
  getopt_results env = pre ++ (c, optarg) :: rest ->
  options_accepted env pre = true ->
  no_end pre = true ->
  handled_option c = false ->
  run build env
  = (Exited 1,
     log (with_client initial_process
            (chosen_client_name pre (downcase (PROGRAM_NAME build))))
         (option_calls env pre ++ map EvCout (help_text build))).
Proof.
  intros Hres Hacc Hend Hc. apply run_ends_in_options.
  rewrite Hres, (option_loop_then _ _ _ _ _ _ _ Hacc Hend).
  unfold handled_option in Hc. simpl in Hc.
  repeat (apply orb_false_elim in Hc as [? Hc]).
  simpl option_loop.
  repeat match goal with E : (c =? _) = false |- _ => rewrite E; clear E end.
  rewrite (bind_normal _ _ _ _ _ (print_help_spec build _)).
  unfold exit. now rewrite log_log.
Qed.

Lemma unhandled_option_prints_help_witness :
  run sample_build env_uuid
  = (Exited 1,
     log (with_client initial_process "ardour") (map EvCout (help_text sample_build))).
Proof.
  apply (unhandled_option_prints_help sample_build env_uuid [] (chr "U") (Some "1234") []);
    reflexivity.
Defined.

(** X4: when PBD::parse_debug_options rejects the argument of -D
    (returns non-zero), the process exits with status 1 at once: main
    itself prints nothing, not even the help text, and the options after
    -D are not looked at. *)
Theorem rejected_debug_options_exit build env pre optarg rest :
  getopt_results env = pre ++ (chr "D", optarg) :: rest ->
  options_accepted env pre = true ->
  no_end pre = true ->
  parse_debug_options env optarg <> 0 ->
  run build env
  = (Exited 1,
     log (with_client initial_process
            (chosen_client_name pre (downcase (PROGRAM_NAME build))))
         (option_calls env pre
            ++ [EvParseDebugOptions optarg (parse_debug_options env optarg)])).
Proof.
  intros Hres Hacc Hend Hr. apply run_ends_in_options.
  rewrite Hres, (option_loop_then _ _ _ _ _ _ _ Hacc Hend).
  simpl option_loop.
  unfold PBD_parse_debug_options, when, bind, emit, ret, exit. simpl.
  apply Z.eqb_neq in Hr. rewrite Hr. simpl. now rewrite log_log.
Qed.

Lemma rejected_debug_options_exit_witness :
  run sample_build env_debug_list
  = (Exited 1,
     log (with_client initial_process "ardour")
         [EvParseDebugOptions (Some "list") 1]).
Proof.
  apply (rejected_debug_options_exit sample_build env_debug_list [] (Some "list") []);
    [reflexivity | reflexivity | reflexivity | discriminate].
Defined.

(** ** From the options to the engine *)

(** Case analysis along [after_options]. *)
Ltac after_options_cases env :=
  unfold after_options in *;
  destruct (argc env <? 3) eqn:?Ea;
  [ | destruct (ardour_init env _ _ _) eqn:?Ei;
      [ destruct (nth_error (argv env) (getopt_optind env)) eqn:?E1;
        [ destruct (nth_error (argv env) (getopt_optind env + 1)) eqn:?E2;
          [ destruct (set_backend env _ _ _) eqn:?Eb;
            [ destruct (engine_start env =? 0) eqn:?Es;
              [ match goal with
                | |- context [match session_constructor env ?d ?s with
                              | Some _ => _ | None => _ end] =>
                    destruct (session_constructor env d s) eqn:?Et
                | H : context [match session_constructor env ?d ?s with
                               | Some _ => _ | None => _ end] |- _ =>
                    destruct (session_constructor env d s) eqn:?Et
                end;
                [ | destruct (shutdown_requested (receive_calls env)) eqn:?Ew ]
              | ]
            | ]
          | ]
        | ]
      | ] ];
  cbn [negb fst snd] in *.

(** X5: ARDOUR::init is called with try_hw_optimization false exactly
    when -O was given, with use_vst false exactly when -V was given in a
    build with WINDOWS_VST_SUPPORT (elsewhere -V is accepted and changes
    nothing), and with LOCALEDIR. *)
Theorem ardour_init_flags build env use_vst try_hw localedir ok :
  In (EvArdourInit use_vst try_hw localedir ok) (events_of build env) ->
  use_vst = negb (WINDOWS_VST_SUPPORT build && given (chr "V") (getopt_results env))
  /\ try_hw = negb (given (chr "O") (getopt_results env))
  /\ localedir = LOCALEDIR build
  /\ ok = ardour_init env use_vst try_hw localedir.
Proof.
  intros H.
  destruct (options_accepted env (getopt_results env)) eqn:Hacc.
  2:{ destruct (run_options_rejected build env Hacc) as [F _].
      apply (in_kind _ _ _ F) in H. discriminate. }
  destruct (run_accepted_parts build env Hacc) as [_ Hev]. rewrite Hev in H.
  pose proof (option_calls_kind env (getopt_results env)) as F.
  fold (use_vst_flag build env). fold (try_hw_flag env).
  after_options_cases env; in_segments H.
  all: injection H as Hv Hw Hl Hk; subst use_vst try_hw localedir ok; auto.
Qed.

Lemma ardour_init_flags_witness :
  true = negb (WINDOWS_VST_SUPPORT sample_build
               && given (chr "V") (getopt_results env_never_woken))
  /\ false = negb (given (chr "O") (getopt_results env_never_woken)).
Proof.
  destruct (ardour_init_flags sample_build env_never_woken true false
              "/usr/share/locale" true) as (Hv & Hw & _).
  - find_event.
  - split; assumption.
Defined.



(** X7: the session is constructed from the two arguments that follow
    the options, [argv[optind]] as its directory and [argv[optind+1]] as
    its snapshot name, and it throws what the collaborator says. *)
Theorem session_is_loaded_from_positional_arguments build env dir state thrown :
  In (EvNewSession dir state thrown) (events_of build env) ->
  nth_error (argv env) (getopt_optind env) = Some dir
  /\ nth_error (argv env) (getopt_optind env + 1) = Some state
  /\ thrown = session_constructor env dir state.
Proof.
  intros H.
  destruct (options_accepted env (getopt_results env)) eqn:Hacc.
  2:{ destruct (run_options_rejected build env Hacc) as [F _].
      apply (in_kind _ _ _ F) in H. discriminate. }
  destruct (run_accepted_parts build env Hacc) as [_ Hev]. rewrite Hev in H.
  pose proof (option_calls_kind env (getopt_results env)) as F.
  after_options_cases env; in_segments H; injection H as <- <- <-; auto.
Qed.

Lemma session_is_loaded_from_positional_arguments_witness :
  nth_error (argv env_halt_then_signal) (getopt_optind env_halt_then_signal) = Some "dir"
  /\ nth_error (argv env_halt_then_signal) (getopt_optind env_halt_then_signal + 1)
     = Some "snap".
Proof.
  destruct (session_is_loaded_from_positional_arguments sample_build env_halt_then_signal
              "dir" "snap" None) as (Hd & Hs & _).
  - find_event.
  - split; assumption.
Defined.

(** ** Runs that get past the options *)

(** X8: with accepted options, two positional arguments and
    collaborators that all succeed, a run in which some call of receive
    returns non-zero makes, in this order, the calls of the options,
    ARDOUR::init, the engine set-up, the session start-up, the wait and
    the four teardown steps, and main returns 0. *)
Theorem run_completes build env dir state :
  options_accepted env (getopt_results env) = true ->
  3 <= argc env ->
  ardour_init env (use_vst_flag build env) (try_hw_flag env) (LOCALEDIR build) = true ->
  nth_error (argv env) (getopt_optind env) = Some dir ->
  nth_error (argv env) (getopt_optind env + 1) = Some state ->
  set_backend env "JACK" (client_name build env) "" = true ->
  engine_start env = 0 ->
  session_constructor env dir state = None ->
  shutdown_requested (receive_calls env) = true ->
  let s := {| session_dir := dir; session_state := state |} in
  outcome_of build env = Normal 0
  /\ events_of build env
     = option_calls env (getopt_results env)
       ++ EvArdourInit (use_vst_flag build env) (try_hw_flag env) (LOCALEDIR build) true
       :: engine_setup ++ session_startup build env s
       ++ wait_trace (receive_calls env) ++ teardown_sequence s.
Proof.
  intros Hacc Hargc Hinit Hdir Hstate Hbackend Hstart Hsession Hwake s.
  destruct (run_accepted_parts build env Hacc) as [-> ->].
  unfold after_options.
  rewrite (proj2 (Z.ltb_ge _ _) Hargc), Hinit, Hdir, Hstate, Hbackend, Hstart,
    Hsession, Hwake.
  split; reflexivity.
Qed.

Lemma run_completes_witness :
  outcome_of sample_build env_halt_then_signal = Normal 0.
Proof.
  apply (run_completes sample_build env_halt_then_signal "dir" "snap");
    try reflexivity.
  unfold argc. simpl. lia.
Defined.

(** X9: under the same conditions, when no call of receive ever
    returns non-zero the coordinator stays in the wait: the process does
    not exit and no teardown step is made, whatever has fired and however
    many tokens have been delivered meanwhile. *)
Theorem run_waits_until_receive_succeeds build env dir state :
  options_accepted env (getopt_results env) = true ->
  3 <= argc env ->
  ardour_init env (use_vst_flag build env) (try_hw_flag env) (LOCALEDIR build) = true ->
  nth_error (argv env) (getopt_optind env) = Some dir ->
  nth_error (argv env) (getopt_optind env + 1) = Some state ->
  set_backend env "JACK" (client_name build env) "" = true ->
  engine_start env = 0 ->
  session_constructor env dir state = None ->
  shutdown_requested (receive_calls env) = false ->
  let s := {| session_dir := dir; session_state := state |} in
  outcome_of build env = Blocked
  /\ exit_status (outcome_of build env) = None
  /\ teardown_steps (events_of build env) = []
  /\ events_of build env
     = option_calls env (getopt_results env)
       ++ EvArdourInit (use_vst_flag build env) (try_hw_flag env) (LOCALEDIR build) true
       :: engine_setup ++ session_startup build env s
       ++ wait_trace (receive_calls env).
Proof.
  intros Hacc Hargc Hinit Hdir Hstate Hbackend Hstart Hsession Hwake s.
  destruct (run_accepted_parts build env Hacc) as [-> ->].
  unfold after_options.
  rewrite (proj2 (Z.ltb_ge _ _) Hargc), Hinit, Hdir, Hstate, Hbackend, Hstart,
    Hsession, Hwake.
  cbn [negb fst snd Z.eqb exit_status].
  split; [reflexivity | split; [reflexivity | split; [|reflexivity]]].
  pose proof (option_calls_kind env (getopt_results env)) as F.
  by_segments. reflexivity.
Qed.

Lemma run_waits_until_receive_succeeds_witness :
  outcome_of sample_build env_never_woken = Blocked
  /\ tokens (events_of sample_build env_never_woken) = ["x"%char; "x"%char].
Proof.
  split; [|reflexivity].
  apply (run_waits_until_receive_succeeds sample_build env_never_woken "dir" "snap");
    try reflexivity.
  unfold argc. simpl. lia.
Defined.

(** X10: the test of line 214 counts every word of the command line.
    When it passes (argc >= 3) and ARDOUR::init succeeds but fewer than
    two arguments are left after the options, line 227 turns a null or
    out-of-bounds [argv] entry into a string: the behaviour is undefined,
    and the engine has not been created. *)
Theorem missing_positional_argument_is_undefined build env :
  options_accepted env (getopt_results env) = true ->
  3 <= argc env ->
  ardour_init env (use_vst_flag build env) (try_hw_flag env) (LOCALEDIR build) = true ->
  (positional_count env < 2)%nat ->
  outcome_of build env = Undefined
  /\ events_of build env
     = option_calls env (getopt_results env)
       ++ [EvArdourInit (use_vst_flag build env) (try_hw_flag env)
                        (LOCALEDIR build) true].
Proof.
  intros Hacc Hargc Hinit Hpos.
  destruct (run_accepted_parts build env Hacc) as [-> ->].
  unfold after_options.
  rewrite (proj2 (Z.ltb_ge _ _) Hargc), Hinit. cbn [negb].
  assert (E2 : nth_error (argv env) (getopt_optind env + 1) = None)
    by (apply nth_error_None; unfold positional_count in Hpos; lia).
  rewrite E2.
  destruct (nth_error (argv env) (getopt_optind env)); split; reflexivity.
Qed.

Lemma missing_positional_argument_is_undefined_witness :
  outcome_of sample_build env_flag_and_directory = Undefined.
Proof.
  apply (missing_positional_argument_is_undefined sample_build env_flag_and_directory);
    [ reflexivity
    | unfold argc; simpl; lia
    | reflexivity
    | unfold positional_count; simpl; lia ].
Defined.

(** X11: when ARDOUR::init fails, main writes "Ardour failed to
    initialize" and an empty line to the error stream and exits with
    status 1; the audio engine is not even created. *)
Theorem failed_library_init_exits build env :
  options_accepted env (getopt_results env) = true ->
  3 <= argc env ->
  ardour_init env (use_vst_flag build env) (try_hw_flag env) (LOCALEDIR build) = false ->
  outcome_of build env = Exited 1
  /\ events_of build env
     = option_calls env (getopt_results env)
       ++ [EvArdourInit (use_vst_flag build env) (try_hw_flag env)
                        (LOCALEDIR build) false;
           EvCerr ("Ardour failed to initialize" ++ nl)%string; EvCerr endl]
  /\ existsb is_engine_init (events_of build env) = false.
Proof.
  intros Hacc Hargc Hinit.
  destruct (run_accepted_parts build env Hacc) as [-> ->].
  unfold after_options.
  rewrite (proj2 (Z.ltb_ge _ _) Hargc), Hinit. cbn [negb fst snd].
  split; [reflexivity | split; [reflexivity|]].
  pose proof (option_calls_kind env (getopt_results env)) as F.
  by_segments. reflexivity.
Qed.

Lemma failed_library_init_exits_witness :
  outcome_of sample_build env_init_fails = Exited 1.
Proof.
  apply (failed_library_init_exits sample_build env_init_fails);
    [ reflexivity | unfold argc; simpl; lia | reflexivity ].
Defined.

(** ** The order of the calls *)

Lemma guarded_app need trigger seen a b :
  guarded need trigger seen (a ++ b)
  = guarded need trigger seen a && guarded need trigger (seen || existsb need a) b.
Proof.
  revert seen; induction a as [|e a IH]; intros seen; simpl.
  - now rewrite orb_false_r.
  - now rewrite IH, andb_assoc, orb_assoc.
Qed.

Lemma guarded_none (P need trigger : Event -> bool) seen l :
  (forall e, P e = true -> trigger e = false) ->
  forallb P l = true -> guarded need trigger seen l = true.
Proof.
  intros HP. revert seen; induction l as [|e l IH]; intros seen; simpl; [reflexivity|].
  intros [He Hl]%andb_prop. now rewrite (HP e He), orb_true_r, IH.
Qed.

Lemma guarded_seen need trigger l : guarded need trigger true l = true.
Proof. induction l; simpl; auto. Qed.

Lemma guarded_before need trigger before e after : forall seen,
  guarded need trigger seen (before ++ e :: after) = true ->
  trigger e = true ->
  seen || existsb need before = true.
Proof.
  induction before as [|b before IH]; intros seen; simpl.
  - intros [H _]%andb_prop He. rewrite He in H. simpl in H.
    now rewrite orb_false_r in *.
  - intros [_ H]%andb_prop He. rewrite orb_assoc. now apply IH.
Qed.

Lemma received_iff_requested calls :
  existsb is_delivery_received (wait_trace calls) = shutdown_requested calls.
Proof.
  induction calls as [|[fired r] rest IH]; simpl; [reflexivity|].
  rewrite existsb_app. simpl.
  assert (Hfired : existsb is_delivery_received (flat_map fire_events fired) = false).
  { apply not_true_is_false. intros (e & Hin & He)%existsb_exists.
    destruct e; try discriminate. now apply fired_no_receive in Hin. }
  rewrite Hfired. simpl. destruct (r =? 0); simpl; [exact IH | reflexivity].
Qed.

Lemma guarded_cerr need trigger seen l :
  (forall s, trigger (EvCerr s) = false) ->
  guarded need trigger seen (map EvCerr l) = true.
Proof.
  intros H. revert seen; induction l as [|s l IH]; intros seen; simpl; [reflexivity|].
  now rewrite H, orb_true_r, IH.
Qed.

Lemma existsb_cerr (Q : Event -> bool) l :
  (forall s, Q (EvCerr s) = false) -> existsb Q (map EvCerr l) = false.
Proof. intros H. induction l as [|s l IH]; simpl; [reflexivity|]. now rewrite H, IH. Qed.

(** Evaluates [guarded] over a trace given by segments. *)
Ltac ordered :=
  unfold engine_setup, session_startup, teardown_sequence;
  repeat first
    [ rewrite guarded_app
    | rewrite guarded_seen
    | rewrite existsb_app
    | rewrite received_iff_requested
    | rewrite orb_true_r
    | match goal with
      | W : shutdown_requested _ = _ |- _ => rewrite W
      | |- context [guarded ?n ?t ?s (map EvCerr ?l)] =>
          rewrite (guarded_cerr n t s l) by reflexivity
      | |- context [existsb ?Q (map EvCerr ?l)] =>
          rewrite (existsb_cerr Q l) by reflexivity
      | |- context [guarded ?n ?t ?s ?l] =>
          rewrite (guarded_none is_option_event n t s l) by kind_side
      | |- context [guarded ?n ?t ?s ?l] =>
          rewrite (guarded_none is_wait_event n t s l) by kind_side
      | |- context [existsb ?Q ?l] =>
          rewrite (existsb_none is_option_event Q l) by kind_side
      | |- context [existsb ?Q ?l] =>
          rewrite (existsb_none is_wait_event Q l) by kind_side
      end
    | progress simpl ].

(** Every run keeps the order [need] before [trigger], for pairs of
    kinds that the nine shapes of a run respect. *)
Ltac ordered_in_every_run build env :=
  let R := fresh "R" in
  pose proof (run_shape build env) as R;
  remember (outcome_of build env) as out; remember (events_of build env) as evs;
  destruct R; ordered; reflexivity.

(** X12: inside load_session the steps depend on each other: the engine
    is started only after a backend has been set, the session is
    constructed only after the engine's start has returned 0, and it is
    bound to the engine only after its constructor has returned. *)
Theorem engine_steps_in_order build env before e after :
  events_of build env = before ++ e :: after ->
  (is_engine_start e = true -> existsb is_backend_set before = true)
  /\ (is_new_session e = true -> existsb is_engine_started before = true)
  /\ (is_set_session e = true -> existsb is_session_built before = true).
Proof.
  assert (H1 : guarded is_backend_set is_engine_start false (events_of build env) = true)
    by ordered_in_every_run build env.
  assert (H2 : guarded is_engine_started is_new_session false (events_of build env) = true)
    by ordered_in_every_run build env.
  assert (H3 : guarded is_session_built is_set_session false (events_of build env) = true)
    by ordered_in_every_run build env.
  intros Hsplit. rewrite Hsplit in H1, H2, H3.
  repeat split; intros He.
  - apply (guarded_before _ _ _ _ _ _ H1 He).
  - apply (guarded_before _ _ _ _ _ _ H2 He).
  - apply (guarded_before _ _ _ _ _ _ H3 He).
Qed.

Lemma engine_steps_in_order_witness :
  existsb is_engine_started
    [EvArdourInit true true "/usr/share/locale" true;
     EvCreatePerThreadPool "test" 512; EvListenTo tx_error; EvListenTo tx_info;
     EvListenTo tx_fatal; EvListenTo tx_warning; EvEngineCreate;
     EvSetBackend "JACK" "ardour" "" true; EvEngineStart 0] = true.
Proof.
  refine (proj1 (proj2 (engine_steps_in_order sample_build env_construction_fails
            _ (EvNewSession "dir" "snap" (Some (failed_constructor "failed constructor")))
            [EvCerr "failed_constructor: "; EvCerr "failed constructor"; EvCerr nl] _)) _);
    reflexivity.
Defined.

Lemma registration_found reg before :
  In reg registrations ->
  existsb (is_registration_of reg) before = true -> In reg before.
Proof.
  intros Hreg (x & Hin & Hx)%existsb_exists.
  assert (x = reg); [|now subst].
  simpl in Hreg. destruct Hreg as [<-|[<-|[<-|[<-|[]]]]];
    destruct x; try discriminate; try reflexivity;
    destruct sig; try discriminate; reflexivity.
Qed.

(** X13: the two callbacks are connected and the two signal handlers
    installed only once the session is bound to the engine; all four are
    in place before the transport is started, and receive is never called
    before that. *)
Theorem handlers_installed_before_waiting build env before e after :
  events_of build env = before ++ e :: after ->
  (In e registrations -> existsb is_set_session before = true)
  /\ (is_running e = true -> forall reg, In reg registrations -> In reg before)
  /\ (is_receive e = true -> existsb is_running before = true).
Proof.
  assert (H1 : forall reg, In reg registrations ->
                 guarded is_set_session (is_registration_of reg) false
                         (events_of build env) = true).
  { intros reg Hreg. simpl in Hreg.
    destruct Hreg as [<-|[<-|[<-|[<-|[]]]]]; ordered_in_every_run build env. }
  assert (H2 : forall reg, In reg registrations ->
                 guarded (is_registration_of reg) is_running false
                         (events_of build env) = true).
  { intros reg Hreg. simpl in Hreg.
    destruct Hreg as [<-|[<-|[<-|[<-|[]]]]]; ordered_in_every_run build env. }
  assert (H3 : guarded is_running is_receive false (events_of build env) = true)
    by ordered_in_every_run build env.
  intros Hsplit. rewrite Hsplit in H1, H2, H3.
  repeat split.
  - intros Hreg. apply (guarded_before _ _ _ _ _ _ (H1 e Hreg)).
    simpl in Hreg. destruct Hreg as [<-|[<-|[<-|[<-|[]]]]]; reflexivity.
  - intros He reg Hreg. apply (registration_found reg before Hreg).
    apply (guarded_before _ _ _ _ _ _ (H2 reg Hreg) He).
  - intros He. apply (guarded_before _ _ _ _ _ _ H3 He).
Qed.

Lemma handlers_installed_before_waiting_witness :
  In EvConnectHalted (firstn 15 (events_of sample_build env_halt_then_signal))
  /\ In (EvSignal SIGTERM) (firstn 15 (events_of sample_build env_halt_then_signal)).
Proof.
  pose proof (proj1 (proj2 (handlers_installed_before_waiting
                sample_build env_halt_then_signal
                (firstn 15 (events_of sample_build env_halt_then_signal))
                (EvRequestTransportSpeed sample_session)
                (skipn 16 (events_of sample_build env_halt_then_signal))
                eq_refl)) eq_refl) as H.
  split; apply H; find_event.
Defined.

(** X14: a teardown step is made only after a call of receive has
    returned non-zero: no path of main unbinds or deletes the session, or
    stops or destroys the engine, without having been woken through the
    channel. *)
Theorem teardown_only_after_delivery build env before e after :
  events_of build env = before ++ e :: after ->
  is_teardown e = true ->
  exists r, r <> 0 /\ In (EvReceive r) before.
Proof.
  assert (H : guarded is_delivery_received is_teardown false (events_of build env) = true)
    by ordered_in_every_run build env.
  intros Hsplit He. rewrite Hsplit in H.
  pose proof (guarded_before _ _ _ _ _ _ H He) as Hseen. simpl in Hseen.
  apply existsb_exists in Hseen as (x & Hin & Hx).
  destruct x; try discriminate. simpl in Hx.
  exists r. split; [|exact Hin].
  intros ->. discriminate.
Qed.

Lemma teardown_only_after_delivery_witness :
  exists r, r <> 0
    /\ In (EvReceive r) (firstn 26 (events_of sample_build env_halt_then_signal)).
Proof.
  apply (teardown_only_after_delivery sample_build env_halt_then_signal
           _ EvRemoveSession
           (skipn 27 (events_of sample_build env_halt_then_signal)));
    reflexivity.
Defined.


(** ** The switches set by the options *)

Lemma given_cons opt c optarg rest :
  (c =? -1) = false ->
  given opt ((c, optarg) :: rest) = (c =? opt) || given opt rest.
Proof. intros H. simpl. now rewrite H. Qed.

Lemma option_calls_switches env results e :
  In e (option_calls env results) ->
  (e = EvSetBypassAllLoadedPlugins true /\ given (chr "B") results = true)
  \/ (e = EvSetDisableAllLoadedPlugins true /\ given (chr "d") results = true)
  \/ (e = EvSetConnectingBlocked true /\ given (chr "P") results = true)
  \/ (exists optarg,
        e = EvParseDebugOptions optarg (parse_debug_options env optarg)
        /\ given (chr "D") results = true).
Proof.
  induction results as [|[c optarg] rest IH]; simpl; [tauto|].
  destruct (c =? -1) eqn:Em1; [simpl; tauto|].
  rewrite in_app_iff. intros [H|H].
  - unfold option_call in H.
    destruct (Z.eqb_spec c (chr "B")) as [->|HB];
      [destruct H as [<-|[]]; left; auto|].
    destruct (Z.eqb_spec c (chr "d")) as [->|Hd];
      [destruct H as [<-|[]]; right; left; auto|].
    destruct (Z.eqb_spec c (chr "D")) as [->|HD];
      [destruct H as [<-|[]]; right; right; right; eauto|].
    destruct (Z.eqb_spec c (chr "P")) as [->|HP];
      [destruct H as [<-|[]]; right; right; left; auto|].
    destruct H.
  - destruct (IH H) as [[-> G]|[[-> G]|[[-> G]|(o & -> & G)]]]; rewrite G, orb_true_r;
      [left | right; left | right; right; left | right; right; right]; eauto.
Qed.

Lemma option_calls_given env results (opt : Z) (call : Event) :
  (forall optarg, In call (option_call env opt optarg)) ->
  given opt results = true -> In call (option_calls env results).
Proof.
  intros Hcall.
  induction results as [|[c optarg] rest IH]; simpl; [discriminate|].
  destruct (c =? -1); [discriminate|].
  rewrite in_app_iff.
  destruct (Z.eqb_spec c opt) as [->|Hc]; simpl; auto.
Qed.

(** X16: in a run that gets as far as ARDOUR::init,
    Session::set_bypass_all_loaded_plugins has been called exactly if -B
    was given, Session::set_disable_all_loaded_plugins exactly if -d, and
    Port::set_connecting_blocked exactly if -P; each is only ever called
    with true, and a -D whose argument was parsed there returned 0. *)
Theorem switches_follow_options build env use_vst try_hw localedir ok :
  In (EvArdourInit use_vst try_hw localedir ok) (events_of build env) ->
  (forall yn, In (EvSetBypassAllLoadedPlugins yn) (events_of build env)
              <-> yn = true /\ given (chr "B") (getopt_results env) = true)
  /\ (forall yn, In (EvSetDisableAllLoadedPlugins yn) (events_of build env)
                 <-> yn = true /\ given (chr "d") (getopt_results env) = true)
  /\ (forall yn, In (EvSetConnectingBlocked yn) (events_of build env)
                 <-> yn = true /\ given (chr "P") (getopt_results env) = true)
  /\ (forall str r, In (EvParseDebugOptions str r) (events_of build env) ->
                    r = parse_debug_options env str).
Proof.
  intros Hinit.
  destruct (options_accepted env (getopt_results env)) eqn:Hacc.
  2:{ destruct (run_options_rejected build env Hacc) as [F _].
      apply (in_kind _ _ _ F) in Hinit. discriminate. }
  destruct (run_accepted_parts build env Hacc) as [_ Hparts].
  pose proof (option_calls_kind env (getopt_results env)) as F.
  assert (Hcalls : forall e, is_option_event e = true ->
            In e (events_of build env) -> In e (option_calls env (getopt_results env))).
  { assert (Hnone : existsb is_option_event
                      (snd (after_options build env (use_vst_flag build env)
                                          (try_hw_flag env))) = false).
    { rewrite Hparts in Hinit. clear - Hinit F.
      after_options_cases env; in_segments Hinit; by_segments; reflexivity. }
    intros e He H. rewrite Hparts in H. apply in_app_iff in H as [H|H]; [exact H|].
    exfalso. apply not_true_iff_false in Hnone. apply Hnone.
    apply existsb_exists. eauto. }
  assert (Hiff : forall e, is_option_event e = true ->
            (In e (events_of build env)
             <-> In e (option_calls env (getopt_results env)))).
  { intros e He. split; [now apply Hcalls|].
    intros H. rewrite Hparts. apply in_app_iff. now left. }
  split; [|split; [|split]].
  - intros yn. rewrite (Hiff (EvSetBypassAllLoadedPlugins yn) eq_refl). split.
    + intros H. apply option_calls_switches in H
        as [[[= ->] G]|[[[=] _]|[[[=] _]|(o & [=] & _)]]]. auto.
    + intros [-> G]. apply (option_calls_given env _ (chr "B")); auto.
      intros; now left.
  - intros yn. rewrite (Hiff (EvSetDisableAllLoadedPlugins yn) eq_refl). split.
    + intros H. apply option_calls_switches in H
        as [[[=] _]|[[[= ->] G]|[[[=] _]|(o & [=] & _)]]]. auto.
    + intros [-> G]. apply (option_calls_given env _ (chr "d")); auto.
      intros; now left.
  - intros yn. rewrite (Hiff (EvSetConnectingBlocked yn) eq_refl). split.
    + intros H. apply option_calls_switches in H
        as [[[=] _]|[[[=] _]|[[[= ->] G]|(o & [=] & _)]]]. auto.
    + intros [-> G]. apply (option_calls_given env _ (chr "P")); auto.
      intros; now left.
  - intros str r H. apply (Hiff (EvParseDebugOptions str r) eq_refl) in H.
    apply option_calls_switches in H
      as [[[=] _]|[[[=] _]|[[[=] _]|(o & [= -> ->] & _)]]]. reflexivity.
Qed.

Lemma switches_follow_options_witness :
  In (EvSetBypassAllLoadedPlugins true) (events_of sample_build env_never_woken)
  /\ ~ In (EvSetConnectingBlocked true) (events_of sample_build env_never_woken).
Proof.
  destruct (switches_follow_options sample_build env_never_woken true false
              "/usr/share/locale" true) as (HB & _ & HP & _).
  - find_event.
  - split.
    + apply HB. split; reflexivity.
    + intros H. apply HP in H as [_ H]. discriminate.
Defined.

(** ** Callbacks in sequence *)

(** X17: however many times and in whatever order the three callbacks
    run, each run of the signal handler, of the engine-halt callback and
    of the UI callback for ("Common", "Quit") hands exactly one 'x' to the
    channel and a UI callback for any other action none; together they
    return normally and make no teardown step. *)
Theorem callbacks_deliver_one_token_each (srcs : list Source) (p : Process) :
  fst (fire_all srcs p) = Normal tt
  /\ delivered (fire_all srcs) p
     = repeat "x"%char (List.length (filter delivers srcs))
  /\ teardown_steps (new_events (fire_all srcs) p) = [].
Proof.
  pose proof (fire_all_spec srcs p) as Hspec.
  unfold delivered. rewrite (new_events_log _ _ _ _ Hspec), Hspec.
  split; [reflexivity | split].
  - induction srcs as [|src rest IH]; simpl; [reflexivity|].
    rewrite tokens_app, (IH (fire_all_spec rest p)).
    destruct src as [sig|reason|g i]; simpl.
    + reflexivity.
    + now rewrite tokens_app, tokens_cerr.
    + now destruct (_ && _).
  - unfold teardown_steps. apply (filter_none is_wait_event); [now intros []|].
    apply fired_kind.
Qed.
